(** * palcode-runner: the container manager (src/container-manager/run.js)

    A shallow embedding of the session dispatcher, the sandbox provisioner,
    the stream relay and the teardown of [run.js], and the properties of the
    execution-session lifecycle proved about them.

    Conventions of the embedding:
    - a command's [data] object is a record of optional string fields
      ([None] is an absent field, i.e. JavaScript's [undefined]);
    - JavaScript numbers are integers ([Int z]) or [NaN]; the model is exact
      for magnitudes below 2^53, which covers every value used here;
    - strings are sequences of ASCII characters;
    - an [async] function body is a state-passing computation that either
      completes or throws, over a state that carries the container runtime,
      the room memberships of the sockets, the attached relays and the
      chronological log of every observable effect. An awaited promise is a
      sequencing point: the effect is logged with its outcome when it settles,
      and only then does the body continue. *)

From Stdlib Require Import ZArith String Ascii List Lia DecimalString DecimalPos DecimalZ
  DecimalNat.
From stdpp Require Import base gmap sets list strings.

Local Open Scope Z_scope.

(** ** JavaScript primitives used by run.js *)

Module JS.

(** A Number: an integer or NaN. *)
Inductive number := NaN | Int (z : Z).

(** The operand of [parseInt]: [process.env.X || d] is a string or a number. *)
Inductive operand := AStr (s : string) | ANum (n : number).

(** ToBoolean on a string. *)
Definition truthy (s : string) : bool :=
  match s with EmptyString => false | String _ _ => true end.

(** [!field] on an optional string field. *)
Definition falsy (f : option string) : bool :=
  match f with None => true | Some s => negb (truthy s) end.

(** [process.env.X || d] *)
Definition or_default (e : option string) (d : number) : operand :=
  match e with
  | Some s => if truthy s then AStr s else ANum d
  | None => ANum d
  end.

(** [process.env.X || 'lit'] *)
Definition or_string (e : option string) (d : string) : string :=
  match e with
  | Some s => if truthy s then s else d
  | None => d
  end.

(** Number.prototype.toString / ToString on a Number. *)
Definition toString (n : number) : string :=
  match n with
  | NaN => "NaN"
  | Int z => NilZero.string_of_int (Z.to_int z)
  end.

(** The ASCII white space that [parseInt] skips; the white space outside
    ASCII that it also skips is not modelled. *)
Definition is_white (c : ascii) : bool :=
  let n := N_of_ascii c in
  (N.eqb n 32 || N.eqb n 9 || N.eqb n 10 || N.eqb n 11 || N.eqb n 12 || N.eqb n 13)%bool.

Fixpoint trimStart (s : string) : string :=
  match s with
  | String c r => if is_white c then trimStart r else s
  | EmptyString => s
  end.

Definition digit_val (c : ascii) : option Z :=
  let n := Z.of_N (N_of_ascii c) in
  if (48 <=? n) && (n <=? 57) then Some (n - 48)
  else if (97 <=? n) && (n <=? 122) then Some (n - 87)
  else if (65 <=? n) && (n <=? 90) then Some (n - 55)
  else None.

Definition digit_in (R : Z) (c : ascii) : option Z :=
  match digit_val c with
  | Some d => if d <? R then Some d else None
  | None => None
  end.

(** The value of the longest prefix of radix-[R] digits; [acc] is [None] until
    a first digit has been read. *)
Fixpoint take_digits (R : Z) (s : string) (acc : option Z) : option Z :=
  match s with
  | String c r =>
      match digit_in R c with
      | Some d => take_digits R r (Some (R * default 0 acc + d))
      | None => acc
      end
  | EmptyString => acc
  end.

Definition strip_sign (s : string) : Z * string :=
  match s with
  | String "-" r => (-1, r)
  | String "+" r => (1, r)
  | _ => (1, s)
  end.

Definition strip_radix (s : string) : Z * string :=
  match s with
  | String "0" (String "x" r) => (16, r)
  | String "0" (String "X" r) => (16, r)
  | _ => (10, s)
  end.

(** [parseInt(string)] with no radix argument. *)
Definition parseInt_string (s : string) : number :=
  let '(sign, s1) := strip_sign (trimStart s) in
  let '(R, s2) := strip_radix s1 in
  match take_digits R s2 None with
  | None => NaN
  | Some m => Int (sign * m)
  end.

(** [parseInt(x)]: the operand is first converted with ToString. *)
Definition parseInt (x : operand) : number :=
  match x with
  | AStr s => parseInt_string s
  | ANum n => parseInt_string (toString n)
  end.

End JS.

Import JS.

(** ** The configuration read from [process.env] *)

Record Env := {
  PAL_TIMEOUT : option string;
  PAL_PID_LIMIT : option string;
  PAL_MEMORY_QUOTA : option string;
  PAL_DISK_QUOTA : option string;
  PAL_STOP_SIGNAL : option string;
}.

Definition no_env : Env :=
  {| PAL_TIMEOUT := None; PAL_PID_LIMIT := None; PAL_MEMORY_QUOTA := None;
     PAL_DISK_QUOTA := None; PAL_STOP_SIGNAL := None |}.

(** The options object handed to [docker.createContainer]. *)
Record CreateOpts := {
  Image : string;
  name : string;
  WorkingDir : string;
  Binds : list string;
  Entrypoint : list string;
  OpenStdin : bool;
  Tty : bool;
  PidsLimit : number;
  Memory : number;
  DiskQuota : number;
  NanoCPUs : Z;
}.

(** The helpers required from other modules of the repository
    ([../helpers], [./resource-allocator]) and from npm packages
    ([path], [sanitize-filename], [uuid]); their code is not part of
    run.js, so they are taken as parameters. *)
Record Helpers := {
  getTag : option string -> string;
  getStorageRoot : unit -> string;
  isValidLanguage : option string -> bool;
  getMaxCPUs : unit -> Z;
  sanitize : string -> string;
  path_resolve : string -> string -> string;
  uuid : nat -> string;
}.

Section Config.
Variable H : Helpers.
Variable env : Env.

(** The first argument of [docker.createContainer] in [execCode]. *)
Definition container_config (projectId : string) (language : option string) : CreateOpts :=
  {| Image := getTag H language;
     name := projectId;
     WorkingDir := "/opt/runner";
     Binds := [path_resolve H (getStorageRoot H tt) (sanitize H projectId) +:+ ":/usr/src/app:rw"];
     Entrypoint := ["./run.sh";
                    toString (parseInt (or_default (PAL_TIMEOUT env) (Int 15))) +:+ "m"];
     OpenStdin := true;
     Tty := true;
     PidsLimit := parseInt (or_default (PAL_PID_LIMIT env) (Int 25));
     Memory := parseInt (or_default (PAL_MEMORY_QUOTA env) (Int (100 * 1048576)));
     DiskQuota := parseInt (or_default (PAL_DISK_QUOTA env) (Int (50 * 1048576)));
     NanoCPUs := getMaxCPUs H tt |}.

Definition stop_signal : string := or_string (PAL_STOP_SIGNAL env) "SIGKILL".
End Config.

(** ** Events, commands and the observable log *)

(** The payload of a ['run'] event; an absent key is [None]. *)
Record RunEvent := {
  status : Z;
  message : option string;
  stdout : option string;
  stdoutID : option string;
  running : option bool;
}.

Definition e_status (st : Z) : RunEvent :=
  {| status := st; message := None; stdout := None; stdoutID := None; running := None |}.
Definition e_message (st : Z) (m : string) (r : option bool) : RunEvent :=
  {| status := st; message := Some m; stdout := None; stdoutID := None; running := r |}.

(** The object literals of run.js, in the order of the file. *)
Definition e_starting : RunEvent := e_message 200 "Starting..." None.
Definition e_failed : RunEvent := e_message 500 "Run failed. Try again." (Some false).
Definition e_created : RunEvent := e_message 200 "Container created! Mounting..." (Some true).
Definition e_chunk (out id : string) : RunEvent :=
  {| status := 200; message := None; stdout := Some out; stdoutID := Some id;
     running := Some true |}.
Definition e_ended : RunEvent :=
  {| status := 200; message := None; stdout := None; stdoutID := None; running := Some false |}.
Definition e_ack : RunEvent := e_message 200 "Request acknowledged. Downloading code..." None.

(** The [data] object of a command. *)
Record Data := {
  projectId : option string;
  language : option string;
  schoolId : option string;
  stdin : option string;
}.

(** The value of a field known to be a string. *)
Definition str (f : option string) : string := default "" f.

(** A dockerode container handle: [docker.getContainer(name)] addresses a
    container by name, the handle passed to the creation callback by the
    identifier the daemon assigned. *)
Inductive Ref := ByName (n : string) | ById (i : nat).

(** [docker.getContainer] only builds the handle; no request is sent. *)
Definition getContainer (projectId : string) : Ref := ByName projectId.

(** Everything the manager does that can be observed from outside, logged in
    chronological order. A request to the runtime or to the code store is
    logged when it settles, with its outcome. *)
Inductive Act :=
  | SocketEmit (socket : nat) (e : RunEvent)
  | RoomEmit (room : string) (e : RunEvent) (recipients : gset nat)
  | LeaveAll (socket : nat)
  | Join (socket : nat) (room : string)
  | CloneCode (project school : string) (ok : bool)
  | SaveChanges (project school : string) (ok : bool)
  | CreateContainer (o : CreateOpts) (created : option nat)
  | ConsoleLog
  | Kill (c : Ref) (signal : string) (ok : bool)
  | Remove (c : Ref) (ok : bool)
  | ContainerStart (c : Ref) (ok : bool)
  | Attach (c : Ref) (ok : bool)
  | AttachStdin (c : Ref) (ok : bool)
  | StreamWrite (c : Ref) (input : string)
  | StreamEndInput (c : Ref)
  | ContainerWait (c : Ref).

(** The container runtime (dockerode) and the code store ([./storage-ops]) as
    seen from run.js: each request transforms the outside world [W] and
    either succeeds or fails. *)
Class Runtime (W : Type) := {
  rt_cloneCode : string -> string -> W -> bool * W;
  rt_saveChanges : string -> string -> W -> bool * W;
  rt_createContainer : CreateOpts -> W -> option nat * W;
  rt_kill : Ref -> string -> W -> bool * W;
  rt_remove : Ref -> W -> bool * W;
  rt_start : Ref -> W -> bool * W;
  rt_attach : Ref -> W -> bool * W;
  rt_attach_stdin : Ref -> W -> bool * W;
  rt_write : Ref -> string -> W -> W;
}.

(** ** Asynchronous function bodies *)

Inductive Exn := DockerError | StorageError | TypeError.

Inductive Res (A : Type) := Done (a : A) | Throw (e : Exn).
Arguments Done {A} a.
Arguments Throw {A} e.

Definition Async (S A : Type) : Type := S -> Res A * S.

Definition ret {S A} (a : A) : Async S A := fun σ => (Done a, σ).

Definition bind {S A B} (m : Async S A) (k : A -> Async S B) : Async S B :=
  fun σ => match m σ with
           | (Done a, σ') => k a σ'
           | (Throw e, σ') => (Throw e, σ')
           end.

Definition throw {S A} (e : Exn) : Async S A := fun σ => (Throw e, σ).

(** [try { m } catch (e) { h }] *)
Definition try_catch {S A} (m : Async S A) (h : Exn -> Async S A) : Async S A :=
  fun σ => match m σ with
           | (Done a, σ') => (Done a, σ')
           | (Throw e, σ') => h e σ'
           end.

Declare Scope async_scope.
Delimit Scope async_scope with async.
Notation "'let*' x ':=' m 'in' k" := (bind m (fun x => k))
  (at level 10, x name, m at level 100, k at level 200, only parsing) : async_scope.
Notation "m '>>' k" := (bind m (fun _ => k))
  (at level 100, k at level 200, right associativity, only parsing) : async_scope.

(** A relay: the ['data'] and ['end'] listeners that [execCode] puts on an
    attached output stream; they close over [projectId] and [schoolId]. *)
Record Relay := { r_project : string; r_school : string }.

Section Manager.
Context {W : Type} `{RT : Runtime W}.
Variable H : Helpers.
Variable env : Env.

(** The state of the process and of its surroundings. *)
Record St := mkSt {
  world : W;
  rooms : gmap nat (gset string);
  relays : gmap nat Relay;
  next_stream : nat;
  next_uuid : nat;
  log : list Act;
}.

Definition set_world (w : W) (σ : St) : St :=
  mkSt w (rooms σ) (relays σ) (next_stream σ) (next_uuid σ) (log σ).
Definition set_rooms (r : gmap nat (gset string)) (σ : St) : St :=
  mkSt (world σ) r (relays σ) (next_stream σ) (next_uuid σ) (log σ).
Definition set_relays (r : gmap nat Relay) (σ : St) : St :=
  mkSt (world σ) (rooms σ) r (next_stream σ) (next_uuid σ) (log σ).
Definition logged (a : list Act) (σ : St) : St :=
  mkSt (world σ) (rooms σ) (relays σ) (next_stream σ) (next_uuid σ) (log σ ++ a).

(** The sockets that are in [room]: the recipients of [io.to(room).emit]. *)
Definition subscribers (rs : gmap nat (gset string)) (room : string) : gset nat :=
  dom (filter (fun kv => room ∈ kv.2) rs).

Local Open Scope async_scope.

(** *** Primitive effects *)

Definition tell (a : Act) : Async St unit := fun σ => (Done tt, logged [a] σ).

(** [socket.emit('run', e)] *)
Definition socket_emit (socket : nat) (e : RunEvent) : Async St unit :=
  tell (SocketEmit socket e).

(** [io.to(room).emit('run', e)] *)
Definition io_to_emit (room : string) (e : RunEvent) : Async St unit :=
  fun σ => tell (RoomEmit room e (subscribers (rooms σ) room)) σ.

(** [socket.leaveAll()] *)
Definition leaveAll (socket : nat) : Async St unit :=
  fun σ => (Done tt, logged [LeaveAll socket] (set_rooms (<[socket := ∅]> (rooms σ)) σ)).

(** [socket.join(room)] *)
Definition join (socket : nat) (room : string) : Async St unit :=
  fun σ => (Done tt, logged [Join socket room]
              (set_rooms (<[socket := {[room]} ∪ rooms σ !!! socket]> (rooms σ)) σ)).

(** [await request]: the body resumes when the request has settled, and
    throws [e] if it was rejected. *)
Definition await (request : W -> bool * W) (act : bool -> Act) (e : Exn) : Async St unit :=
  fun σ => let '(ok, w) := request (world σ) in
           (if ok then Done tt else Throw e, logged [act ok] (set_world w σ)).

(** A request whose promise is dropped: its outcome is never observed. *)
Definition dropped (request : W -> bool * W) (act : bool -> Act) : Async St unit :=
  fun σ => let '(ok, w) := request (world σ) in
           (Done tt, logged [act ok] (set_world w σ)).

(** A request with a node-style callback [(err, value) => ...]: the
    callback's arguments. *)
Definition callback {A} (request : W -> A * W) (act : A -> Act) : Async St A :=
  fun σ => let '(a, w) := request (world σ) in
           (Done a, logged [act a] (set_world w σ)).

Definition fresh_uuid : Async St string :=
  fun σ => (Done (uuid H (next_uuid σ)),
            mkSt (world σ) (rooms σ) (relays σ) (next_stream σ) (S (next_uuid σ)) (log σ)).

(** [stream.on('data', ...); stream.on('end', ...)] on a new output stream. *)
Definition listen (r : Relay) : Async St unit :=
  fun σ => (Done tt,
            mkSt (world σ) (rooms σ) (<[next_stream σ := r]> (relays σ))
                 (S (next_stream σ)) (next_uuid σ) (log σ)).

(** *** containerStop (run.js, lines 104-119) *)
Definition containerStop (projectId : string) : Async St unit :=
  let container := getContainer projectId in
  try_catch
    (await (rt_kill container (stop_signal env)) (Kill container (stop_signal env)) DockerError)
    (fun _ => ret tt) >>
  try_catch
    (await (rt_remove container) (Remove container) DockerError)
    (fun _ => ret tt).

(** *** The listeners of the relay (run.js, lines 64-83)

    A chunk is modelled as the text it decodes to: [chunk.toString('utf8')]
    is the identity on ASCII bytes, the strings of this development; what
    the decoder does with bytes that are not valid UTF-8 is not modelled. *)
Definition onData (projectId : string) (chunk : string) : Async St unit :=
  let stdout := chunk in
  let* stdoutID := fresh_uuid in
  io_to_emit projectId (e_chunk stdout stdoutID).

Definition onEnd (projectId schoolId : string) : Async St unit :=
  io_to_emit projectId e_ended >>
  containerStop projectId >>
  await (rt_saveChanges projectId schoolId) (SaveChanges projectId schoolId) StorageError.

(** *** execCode (run.js, lines 10-86) *)
Definition execCode (projectId : string) (language : option string) (schoolId : string)
  : Async St unit :=
  io_to_emit projectId e_starting >>
  let config := container_config H env projectId language in
  let* created := callback (rt_createContainer config) (CreateContainer config) in
  match created with
  | None =>
      tell ConsoleLog >>
      io_to_emit projectId e_failed
  | Some id =>
      let container := ById id in
      io_to_emit projectId e_created >>
      dropped (rt_start container) (ContainerStart container) >>
      let* stream := callback (rt_attach container) (Attach container) in
      if (stream : bool)
      then listen {| r_project := projectId; r_school := schoolId |}
      else throw TypeError
  end.

(** *** containerStdin (run.js, lines 88-102) *)
Definition containerStdin (projectId input : string) : Async St unit :=
  let container := getContainer projectId in
  let* stream := callback (rt_attach_stdin container) (AttachStdin container) in
  (if (stream : bool)
   then callback (fun w => (tt, rt_write container input w)) (fun _ => StreamWrite container input) >>
        tell (StreamEndInput container)
   else ret tt) >>
  tell (ContainerWait container).

(** *** The socket listeners (run.js, lines 121-183) *)
Definition onStart (socket : nat) (data : Data) : Async St unit :=
  if falsy (projectId data) || negb (isValidLanguage H (language data)) || falsy (schoolId data)
  then socket_emit socket (e_status 400)
  else
    socket_emit socket e_ack >>
    let* cloned :=
      try_catch
        (await (rt_cloneCode (str (projectId data)) (str (schoolId data)))
               (CloneCode (str (projectId data)) (str (schoolId data))) StorageError >>
         ret true)
        (fun _ => socket_emit socket (e_status 404) >> ret false) in
    if (cloned : bool)
    then
      containerStop (str (projectId data)) >>
      leaveAll socket >>
      join socket (str (projectId data)) >>
      execCode (str (projectId data)) (language data) (str (schoolId data))
    else ret tt.

Definition onStdin (socket : nat) (data : Data) : Async St unit :=
  if falsy (projectId data) || falsy (stdin data)
  then socket_emit socket (e_status 400)
  else containerStdin (str (projectId data)) (str (stdin data)).

Definition onStop (socket : nat) (data : Data) : Async St unit :=
  if falsy (projectId data)
  then socket_emit socket (e_status 400)
  else
    containerStop (str (projectId data)) >>
    socket_emit socket e_ended.

(** *** The event loop *)

Inductive Cmd := Start | Stdin | Stop.

(** What the process reacts to: a command on a socket, or a ['data'] or
    ['end'] event of an attached output stream. *)
Inductive Ev :=
  | Command (socket : nat) (c : Cmd) (data : Data)
  | StreamData (k : nat) (chunk : string)
  | StreamEnd (k : nat).

(** A stream emits ['end'] once and nothing after it: its listeners are
    gone once ['end'] has been dispatched. *)
Definition dispatch (e : Ev) : Async St unit :=
  match e with
  | Command socket Start data => onStart socket data
  | Command socket Stdin data => onStdin socket data
  | Command socket Stop data => onStop socket data
  | StreamData k chunk =>
      fun σ => match relays σ !! k with
               | Some r => onData (r_project r) chunk σ
               | None => (Done tt, σ)
               end
  | StreamEnd k =>
      fun σ => match relays σ !! k with
               | Some r => onEnd (r_project r) (r_school r) (set_relays (delete k (relays σ)) σ)
               | None => (Done tt, σ)
               end
  end.

(** One step is one chain handled alone: the listener of the event with the
    callbacks it sets off, with no other listener running between its
    [await]s. Statements about [step] and [run] are about events handled one
    after the other in this sense. *)
Definition step (σ : St) (e : Ev) : St := (dispatch e σ).2.

Definition run (evs : list Ev) (σ : St) : St := foldl step σ evs.

End Manager.

(** ** A reference container runtime

    The Docker daemon and the code store, as far as run.js relies on them: a
    list of containers, each with the options it was created with; creation
    is refused when the image is unknown or the name is already in use;
    [kill] needs a running container; a forced removal deletes the container
    whatever its state. *)

Module Docker.

Record Sandbox := {
  sb_id : nat;
  sb_config : CreateOpts;
  sb_running : bool;
  sb_input : list string;
}.

Record World := {
  containers : list Sandbox;
  images : list string;
  next_id : nat;
  remote : list (string * string);
}.

Definition set_containers (cs : list Sandbox) (w : World) : World :=
  {| containers := cs; images := images w; next_id := next_id w; remote := remote w |}.

Definition sb_name (c : Sandbox) : string := name (sb_config c).

Definition resolves (r : Ref) (c : Sandbox) : bool :=
  match r with
  | ByName n => String.eqb n (sb_name c)
  | ById i => Nat.eqb i (sb_id c)
  end.

Definition set_running (b : bool) (c : Sandbox) : Sandbox :=
  {| sb_id := sb_id c; sb_config := sb_config c; sb_running := b; sb_input := sb_input c |}.

Definition feed (input : string) (c : Sandbox) : Sandbox :=
  {| sb_id := sb_id c; sb_config := sb_config c; sb_running := sb_running c;
     sb_input := sb_input c ++ [input] |}.

(** Apply [f] to the containers a handle resolves to. *)
Definition update (r : Ref) (f : Sandbox -> Sandbox) (w : World) : World :=
  set_containers (map (fun c => if resolves r c then f c else c) (containers w)) w.

(** The signals that cannot be caught; any other signal is delivered and
    the process decides. *)
Definition fatal (signal : string) : bool :=
  String.eqb signal "SIGKILL" || String.eqb signal "KILL" || String.eqb signal "9".

Definition kill (r : Ref) (signal : string) (w : World) : bool * World :=
  match find (resolves r) (containers w) with
  | Some c =>
      if sb_running c
      then (true, if fatal signal then update r (set_running false) w else w)
      else (false, w)
  | None => (false, w)
  end.

Definition remove (r : Ref) (w : World) : bool * World :=
  match find (resolves r) (containers w) with
  | Some _ => (true, set_containers (List.filter (fun c => negb (resolves r c)) (containers w)) w)
  | None => (false, w)
  end.

Definition name_in_use (n : string) (w : World) : bool :=
  existsb (fun c => String.eqb n (sb_name c)) (containers w).

Definition createContainer (o : CreateOpts) (w : World) : option nat * World :=
  if existsb (String.eqb (Image o)) (images w) && negb (name_in_use (name o) w)
  then (Some (next_id w),
        {| containers := containers w ++
                         [{| sb_id := next_id w; sb_config := o; sb_running := false;
                             sb_input := [] |}];
           images := images w; next_id := S (next_id w); remote := remote w |})
  else (None, w).

Definition start (r : Ref) (w : World) : bool * World :=
  match find (resolves r) (containers w) with
  | Some c => if sb_running c then (false, w) else (true, update r (set_running true) w)
  | None => (false, w)
  end.

Definition attach (r : Ref) (w : World) : bool * World :=
  (bool_decide (is_Some (find (resolves r) (containers w))), w).

Definition write (r : Ref) (input : string) (w : World) : World :=
  update r (feed input) w.

(** Modelled from the spec: the code store of [./storage-ops], whose code is
    not part of run.js. The spec gives its interface only:
    [cloneCode(projectId, schoolId) -> success/failure] and
    [saveChanges(projectId, schoolId)]. Here a project can be fetched and
    saved when the store knows it; the store does not touch the containers. *)
Definition in_store (p s : string) (w : World) : bool :=
  existsb (fun ps => String.eqb p ps.1 && String.eqb s ps.2) (remote w).

(** Modelled from the spec: [cloneCode(projectId, schoolId) -> success/failure]
    of [./storage-ops]. *)
Definition cloneCode (p s : string) (w : World) : bool * World := (in_store p s w, w).

(** Modelled from the spec: [saveChanges(projectId, schoolId)] of
    [./storage-ops]. *)
Definition saveChanges (p s : string) (w : World) : bool * World := (in_store p s w, w).

(** The live sandboxes named [n]. *)
Definition live (n : string) (w : World) : list Sandbox :=
  List.filter (fun c => String.eqb n (sb_name c)) (containers w).

(** The names of the live sandboxes. *)
Definition names (w : World) : list string := map sb_name (containers w).

End Docker.

#[export] Instance docker_runtime : Runtime Docker.World := {|
  rt_cloneCode := Docker.cloneCode;
  rt_saveChanges := Docker.saveChanges;
  rt_createContainer := Docker.createContainer;
  rt_kill := Docker.kill;
  rt_remove := Docker.remove;
  rt_start := Docker.start;
  rt_attach := Docker.attach;
  rt_attach_stdin := Docker.attach;
  rt_write := Docker.write;
|}.

(** ** Vocabulary of the statements *)

Section Outcomes.
Context {W : Type} `{RT : Runtime W}.
Variable H : Helpers.
Variable env : Env.

(** A [start] command that passes the validation of [onStart]. *)
Definition valid_start (data : Data) : bool :=
  negb (falsy (projectId data) || negb (isValidLanguage H (language data))
        || falsy (schoolId data)).

(** Outcome of the code fetch of a [start], and the world after it. *)
Definition fetch_ok (data : Data) (w : W) : bool :=
  (rt_cloneCode (str (projectId data)) (str (schoolId data)) w).1.
Definition fetched (data : Data) (w : W) : W :=
  (rt_cloneCode (str (projectId data)) (str (schoolId data)) w).2.

(** Outcomes of the two requests of [containerStop], and the world after
    both have settled. *)
Definition kill_ok (p : string) (w : W) : bool :=
  (rt_kill (getContainer p) (stop_signal env) w).1.
Definition killed (p : string) (w : W) : W :=
  (rt_kill (getContainer p) (stop_signal env) w).2.
Definition remove_ok (p : string) (w : W) : bool :=
  (rt_remove (getContainer p) (killed p w)).1.
Definition stopped (p : string) (w : W) : W :=
  (rt_remove (getContainer p) (killed p w)).2.

(** The two log entries of a teardown of [p] in world [w]. *)
Definition teardown_acts (p : string) (w : W) : list Act :=
  [Kill (getContainer p) (stop_signal env) (kill_ok p w);
   Remove (getContainer p) (remove_ok p w)].

(** The world in which the creation request of a [start] is made, and its
    outcome. *)
Definition before_create (data : Data) (w : W) : W :=
  stopped (str (projectId data)) (fetched data w).
Definition create_result (data : Data) (w : W) : option nat :=
  (rt_createContainer (container_config H env (str (projectId data)) (language data))
     (before_create data w)).1.
Definition after_create (data : Data) (w : W) : W :=
  (rt_createContainer (container_config H env (str (projectId data)) (language data))
     (before_create data w)).2.

(** The state of the process when [onStart] calls [execCode]. *)
Definition at_execCode (socket : nat) (data : Data) (σ : St) : St :=
  mkSt (before_create data (world σ))
       (<[socket := {[str (projectId data)]}]> (rooms σ))
       (relays σ) (next_stream σ) (next_uuid σ)
       (log σ ++ [SocketEmit socket e_ack;
                  CloneCode (str (projectId data)) (str (schoolId data)) true]
              ++ teardown_acts (str (projectId data)) (fetched data (world σ))
              ++ [LeaveAll socket; Join socket (str (projectId data))]).
End Outcomes.

(** Classification of log entries. *)
Definition settles_teardown (a : Act) : bool :=
  match a with Kill _ _ _ | Remove _ _ => true | _ => false end.

Definition is_create (a : Act) : bool :=
  match a with CreateContainer _ _ => true | _ => false end.

Definition is_membership (a : Act) : bool :=
  match a with LeaveAll _ | Join _ _ => true | _ => false end.

(** The payload has the shape [{status: st, running: false}], with or without
    a message. *)
Definition not_running (st : Z) (e : RunEvent) : bool :=
  (status e =? st) && match running e with Some false => true | _ => false end.

Definition has_message (e : RunEvent) : bool :=
  match message e with Some _ => true | None => false end.

(** [socket.emit] of the "not running" acknowledgement to [socket]. *)
Definition is_ack (socket : nat) (a : Act) : bool :=
  match a with
  | SocketEmit s e => Nat.eqb s socket && not_running 200 e && negb (has_message e)
  | _ => false
  end.

(** The entries logged before the first one that satisfies [P]. *)
Fixpoint acts_before (P : Act -> bool) (t : list Act) : option (list Act) :=
  match t with
  | [] => None
  | a :: t' => if P a then Some [] else option_map (cons a) (acts_before P t')
  end.

(** The acknowledgement of a [stop] is in the log and no kill or removal had
    settled when it was emitted. *)
Definition ack_precedes_teardown (socket : nat) (t : list Act) : bool :=
  match acts_before (is_ack socket) t with
  | Some pre => forallb (fun a => negb (settles_teardown a)) pre
  | None => false
  end.

(** The events broadcast to [room], in order. *)
Definition room_events (room : string) (t : list Act) : list RunEvent :=
  omap (fun a => match a with
                 | RoomEmit r e _ => if String.eqb r room then Some e else None
                 | _ => None
                 end) t.

(** The provisioning-failure shape of the event table:
    [{status: 200, message: string, running: false}]. *)
Definition failure_200 (e : RunEvent) : bool := not_running 200 e && has_message e.

(** Socket [s] gets no broadcast addressed to [room] among the entries [t]. *)
Definition unheard (s : nat) (room : string) (a : Act) : Prop :=
  match a with
  | RoomEmit r _ recipients => r = room -> s ∉ recipients
  | _ => True
  end.

(** The events that reach socket [s], in order: the direct replies to it and
    the broadcasts it is a recipient of. *)
Definition received (s : nat) (t : list Act) : list RunEvent :=
  omap (fun a => match a with
                 | SocketEmit s' e => if Nat.eqb s' s then Some e else None
                 | RoomEmit _ e recipients => if bool_decide (s ∈ recipients) then Some e else None
                 | _ => None
                 end) t.

(** A [start] command of socket [s] that names project [p]. *)
Definition starts (s : nat) (p : string) (e : Ev) : bool :=
  match e with
  | Command s' Start data =>
      Nat.eqb s' s && match projectId data with Some q => String.eqb q p | None => false end
  | _ => false
  end.

(** The entries logged between state [σ] and a later state [σ']. *)
Definition since {W : Type} (σ σ' : @St W) : list Act :=
  drop (length (log σ)) (log σ').

(** *** Invariants of the event loop *)

(** A property of the outside world that every request to the runtime keeps. *)
Record runtime_preserves {W : Type} `{RT : Runtime W} (Iw : W -> Prop) : Prop := {
  keeps_cloneCode : forall p s w, Iw w -> Iw (rt_cloneCode p s w).2;
  keeps_saveChanges : forall p s w, Iw w -> Iw (rt_saveChanges p s w).2;
  keeps_createContainer : forall o w, Iw w -> Iw (rt_createContainer o w).2;
  keeps_kill : forall r sig w, Iw w -> Iw (rt_kill r sig w).2;
  keeps_remove : forall r w, Iw w -> Iw (rt_remove r w).2;
  keeps_start : forall r w, Iw w -> Iw (rt_start r w).2;
  keeps_attach : forall r w, Iw w -> Iw (rt_attach r w).2;
  keeps_attach_stdin : forall r w, Iw w -> Iw (rt_attach_stdin r w).2;
  keeps_write : forall r i w, Iw w -> Iw (rt_write r i w);
}.

(** An invariant made of a property of the world and one of the rooms. *)
Definition state_inv {W : Type} (Iw : W -> Prop) (Ir : gmap nat (gset string) -> Prop)
  (σ : @St W) : Prop :=
  Iw (world σ) /\ Ir (rooms σ).

(** A property of every broadcast: of its room and its recipients. *)
Definition room_ok (GR : string -> gset nat -> Prop) (a : Act) : Prop :=
  match a with
  | RoomEmit r _ recipients => GR r recipients
  | _ => True
  end.

(** The computation keeps the invariant [I], only extends the log, and every
    entry it logs satisfies [G]. *)
Definition maintains {W X : Type} (I : @St W -> Prop) (G : Act -> Prop)
  (m : Async (@St W) X) : Prop :=
  forall σ, I σ -> I (m σ).2 /\ exists t, log (m σ).2 = log σ ++ t /\ Forall G t.

(** The joins that an event may cause are all permitted by [allowed]. *)
Definition may_join (H : Helpers) (allowed : nat -> string -> Prop) (e : Ev) : Prop :=
  match e with
  | Command s Start data => valid_start H data = true -> allowed s (str (projectId data))
  | _ => True
  end.

(** ** Concrete data for the examples *)

(** Modelled from the spec: stand-ins, for the examples only, for the helpers
    whose code is not part of run.js: the tag resolver [language -> image
    tag], the language validator [language -> boolean], the CPU budget
    allocator [() -> budget], and the npm helpers. *)
Definition demo_helpers : Helpers := {|
  getTag := fun l => "palcode/" +:+ str l;
  getStorageRoot := fun _ => "/var/palcode";
  isValidLanguage := fun l => match l with Some "python" => true | _ => false end;
  getMaxCPUs := fun _ => 500000000;
  sanitize := fun s => s;
  path_resolve := fun a b => a +:+ "/" +:+ b;
  uuid := fun n => "id-" +:+ NilZero.string_of_uint (Nat.to_uint n);
|}.

Definition command (p l s i : option string) : Data :=
  {| projectId := p; language := l; schoolId := s; stdin := i |}.

Definition start_abc : Data := command (Some "abc") (Some "python") (Some "s1") None.
Definition stop_abc : Data := command (Some "abc") None None None.

(** A host with the python image, project abc of school s1 in the store, and
    the given containers. *)
Definition host (cs : list Docker.Sandbox) (imgs : list string) : Docker.World :=
  {| Docker.containers := cs; Docker.images := imgs;
     Docker.next_id := 10; Docker.remote := [("abc", "s1")] |}.

Definition sandbox_abc : Docker.Sandbox :=
  {| Docker.sb_id := 3;
     Docker.sb_config := container_config demo_helpers no_env "abc" (Some "python");
     Docker.sb_running := true;
     Docker.sb_input := [] |}.

(** A fresh process on world [w]. *)
Definition boot {W : Type} (w : W) : @St W := mkSt w ∅ ∅ 0%nat 0%nat [].

(** ** Vocabulary of the further properties *)

(** The [stdoutID]s of the output chunks broadcast in [t], in order. *)
Definition chunk_ids (t : list Act) : list string :=
  omap (fun a => match a with RoomEmit _ e _ => stdoutID e | _ => None end) t.

(** The text consists of ASCII characters only. *)
Fixpoint ascii_text (s : string) : bool :=
  match s with
  | EmptyString => true
  | String c r => N.ltb (N_of_ascii c) 128 && ascii_text r
  end.

(** An event sent to a client, directly or through a room. *)
Definition is_emit (a : Act) : bool :=
  match a with SocketEmit _ _ | RoomEmit _ _ _ => true | _ => false end.

(** Every socket is in at most one room. *)
Definition exclusive (rs : gmap nat (gset string)) : Prop :=
  forall (s : nat) (p q : string), p ∈ rs !!! s -> q ∈ rs !!! s -> p = q.

(** The identifiers of the containers of the host are below the next one the
    daemon hands out. *)
Definition ids_fresh (w : Docker.World) : Prop :=
  Forall (fun c => (Docker.sb_id c < Docker.next_id w)%nat) (Docker.containers w).

(** The command names project [q]. *)
Definition names_project (q : string) (e : Ev) : bool :=
  match e with
  | Command _ _ data =>
      match projectId data with Some p => String.eqb p q | None => false end
  | _ => false
  end.

(** The event is the end of the output of a relay that state [σ] holds for
    project [q]. *)
Definition ends_relay_of {W : Type} (q : string) (σ : @St W) (e : Ev) : bool :=
  match e with
  | StreamEnd k =>
      match relays σ !! k with
      | Some r => String.eqb (r_project r) q
      | None => false
      end
  | _ => false
  end.

(** The event concerns another project than [q]: it is not a command that
    names [q], and not the end of a relay that [σ] holds for [q]. *)
Definition foreign_to {W : Type} (q : string) (σ : @St W) (e : Ev) : bool :=
  negb (names_project q e) && negb (ends_relay_of q σ e).

(** Every relay that [σ'] holds for project [q] is one that [σ] held for it,
    under the same stream. *)
Definition relays_from {W : Type} (q : string) (σ σ' : @St W) : Prop :=
  forall (k : nat) (r : Relay),
    relays σ' !! k = Some r -> r_project r = q ->
    ends_relay_of q σ (StreamEnd k) = true.

(** The image of the language of a [start] is on the host. *)
Definition image_available (H : Helpers) (data : Data) (w : Docker.World) : bool :=
  existsb (String.eqb (getTag H (language data))) (Docker.images w).


(** A first character with which no number can start: an ASCII character
    that is not a space, not a sign, not a decimal digit. *)
Definition junk_head (c : ascii) : bool :=
  N.ltb (N_of_ascii c) 128
  && negb (is_white c) && negb (Ascii.eqb c "-") && negb (Ascii.eqb c "+")
  && match digit_in 10 c with Some _ => false | None => true end.

(** The environment in which every variable set to the empty string is
    unset. *)
Definition unset_empty (e : option string) : option string :=
  match e with
  | Some s => if truthy s then Some s else None
  | None => None
  end.

Definition without_empty (env : Env) : Env :=
  {| PAL_TIMEOUT := unset_empty (PAL_TIMEOUT env);
     PAL_PID_LIMIT := unset_empty (PAL_PID_LIMIT env);
     PAL_MEMORY_QUOTA := unset_empty (PAL_MEMORY_QUOTA env);
     PAL_DISK_QUOTA := unset_empty (PAL_DISK_QUOTA env);
     PAL_STOP_SIGNAL := unset_empty (PAL_STOP_SIGNAL env) |}.



(** The socket a direct reply is addressed to. *)
Definition replies_to (a : Act) : option nat :=
  match a with SocketEmit s _ => Some s | _ => None end.

(** The event is a command sent on socket [s]. *)
Definition sent_by (s : nat) (e : Ev) : bool :=
  match e with Command s' _ _ => Nat.eqb s' s | _ => false end.

(** The sandbox that a successful creation request with options [o] adds to
    host [w]; it is running once it has been started. *)
Definition new_sandbox (o : CreateOpts) (w : Docker.World) (started : bool)
  : Docker.Sandbox :=
  {| Docker.sb_id := Docker.next_id w; Docker.sb_config := o;
     Docker.sb_running := started; Docker.sb_input := [] |}.

(** Modelled from the spec: a second stand-in for the helpers, for the
    examples only, whose identifiers are the decimal numerals. *)
Definition numbering_helpers : Helpers := {|
  getTag := getTag demo_helpers;
  getStorageRoot := getStorageRoot demo_helpers;
  isValidLanguage := isValidLanguage demo_helpers;
  getMaxCPUs := getMaxCPUs demo_helpers;
  sanitize := sanitize demo_helpers;
  path_resolve := path_resolve demo_helpers;
  uuid := fun n => NilEmpty.string_of_uint (Nat.to_uint n);
|}.

(** * Properties of the lifecycle manager *)

(** ** The functions on concrete inputs *)

Example parseInt_examples :
  parseInt (ANum (Int 15)) = Int 15 /\
  parseInt (AStr "30") = Int 30 /\
  parseInt (AStr "  -12px") = Int (-12) /\
  parseInt (AStr "0x1F") = Int 31 /\
  parseInt (AStr "ten") = NaN /\
  toString (parseInt (AStr "007")) = "7".
Proof. repeat split; reflexivity. Qed.

(** A session from start to natural end, as the client on socket 7 sees it. *)
Example session_of_abc :
  received 7%nat
    (log (run demo_helpers no_env
            [Command 7%nat Start start_abc; StreamData 0%nat "42"; StreamEnd 0%nat]
            (boot (host [] ["palcode/python"]))))
  = [e_ack; e_starting; e_created; e_chunk "42" "id-0"; e_ended].
Proof. vm_compute. reflexivity. Qed.

(** A [start] without [schoolId] is answered with [{status: 400}] alone and
    no sandbox is created. *)
Example start_without_schoolId :
  let σ' := run demo_helpers no_env
              [Command 7%nat Start (command (Some "abc") (Some "python") None None)]
              (boot (host [] ["palcode/python"])) in
  log σ' = [SocketEmit 7%nat (e_status 400)] /\ Docker.containers (world σ') = [].
Proof. split; reflexivity. Qed.

(** ** What each function of run.js does, for any container runtime *)

Section Lifecycle.
Context {W : Type} `{RT : Runtime W}.
Variable H : Helpers.
Variable env : Env.
Implicit Types (σ : @St W) (p : string) (data : Data).

Ltac unfold_async :=
  unfold bind, try_catch, await, dropped, callback, ret, throw, socket_emit,
    io_to_emit, tell, leaveAll, join, listen, logged, set_world, set_rooms, set_relays;
  simpl.

Ltac same_state := simpl; rewrite <- ?app_assoc; simpl; reflexivity.

Lemma containerStop_eq p σ :
  containerStop env p σ =
  (Done tt, mkSt (stopped env p (world σ)) (rooms σ) (relays σ) (next_stream σ)
              (next_uuid σ) (log σ ++ teardown_acts env p (world σ))).
Proof.
  unfold containerStop, teardown_acts, remove_ok, stopped, kill_ok, killed.
  unfold_async.
  destruct (rt_kill _ _ _) as [[] w1]; simpl;
    destruct (rt_remove _ _) as [[] w2]; same_state.
Qed.

Lemma onStop_eq socket data σ :
  falsy (projectId data) = false ->
  onStop env socket data σ =
  (Done tt, mkSt (stopped env (str (projectId data)) (world σ)) (rooms σ) (relays σ)
              (next_stream σ) (next_uuid σ)
              (log σ ++ teardown_acts env (str (projectId data)) (world σ)
                     ++ [SocketEmit socket e_ended])).
Proof.
  intros Hp. unfold onStop. rewrite Hp. unfold bind at 1.
  rewrite containerStop_eq. unfold_async. same_state.
Qed.

Lemma onStop_malformed socket data σ :
  falsy (projectId data) = true ->
  onStop env socket data σ = (Done tt, logged [SocketEmit socket (e_status 400)] σ).
Proof. intros Hp. unfold onStop. rewrite Hp. reflexivity. Qed.

Lemma onEnd_eq p sch σ :
  onEnd env p sch σ =
  let w := stopped env p (world σ) in
  ((if (rt_saveChanges p sch w).1 then Done tt else Throw StorageError),
   mkSt (rt_saveChanges p sch w).2 (rooms σ) (relays σ) (next_stream σ) (next_uuid σ)
     (log σ ++ [RoomEmit p e_ended (subscribers (rooms σ) p)]
            ++ teardown_acts env p (world σ)
            ++ [SaveChanges p sch (rt_saveChanges p sch w).1])).
Proof.
  unfold onEnd. unfold bind at 1. unfold io_to_emit, tell. unfold bind at 1.
  rewrite containerStop_eq. unfold_async.
  destruct (rt_saveChanges _ _ _) as [ok w']; same_state.
Qed.

Lemma onStart_malformed socket data σ :
  valid_start H data = false ->
  onStart H env socket data σ = (Done tt, logged [SocketEmit socket (e_status 400)] σ).
Proof.
  unfold valid_start, onStart. intros Hv. apply negb_false_iff in Hv.
  rewrite Hv. reflexivity.
Qed.

Lemma onStart_not_found socket data σ :
  valid_start H data = true ->
  fetch_ok data (world σ) = false ->
  onStart H env socket data σ =
  (Done tt, mkSt (fetched data (world σ)) (rooms σ) (relays σ) (next_stream σ) (next_uuid σ)
              (log σ ++ [SocketEmit socket e_ack;
                         CloneCode (str (projectId data)) (str (schoolId data)) false;
                         SocketEmit socket (e_status 404)])).
Proof.
  unfold valid_start, onStart, fetch_ok, fetched. intros Hv Hf.
  apply negb_true_iff in Hv. rewrite Hv. unfold_async.
  destruct (rt_cloneCode _ _ _) as [ok w']. simpl in Hf. subst ok. same_state.
Qed.

Lemma rooms_replaced socket p (rs : gmap nat (gset string)) :
  <[socket := {[p]} ∪ <[socket := ∅]> rs !!! socket]> (<[socket := ∅]> rs)
  = <[socket := {[p]}]> rs.
Proof.
  rewrite lookup_total_insert_eq, insert_insert_eq.
  by rewrite (right_id_L ∅ (∪)).
Qed.

Lemma onStart_accepted socket data σ :
  valid_start H data = true ->
  fetch_ok data (world σ) = true ->
  onStart H env socket data σ =
  execCode H env (str (projectId data)) (language data) (str (schoolId data))
    (at_execCode env socket data σ).
Proof.
  unfold valid_start, onStart, fetch_ok, at_execCode, before_create, fetched.
  intros Hv Hf. apply negb_true_iff in Hv. rewrite Hv.
  unfold bind at 1. unfold socket_emit at 1, tell.
  unfold bind at 1. unfold try_catch, bind at 1, await.
  simpl. destruct (rt_cloneCode _ _ _) as [ok w']. simpl in Hf. subst ok.
  unfold ret at 1. unfold bind at 1. rewrite containerStop_eq.
  unfold bind at 1, leaveAll. unfold bind at 1, join. simpl.
  rewrite rooms_replaced. f_equal. unfold logged, set_rooms, set_world. simpl.
  f_equal. rewrite <- !app_assoc. reflexivity.
Qed.

Lemma execCode_failed p lang sch σ :
  (rt_createContainer (container_config H env p lang) (world σ)).1 = None ->
  execCode H env p lang sch σ =
  (Done tt,
   mkSt (rt_createContainer (container_config H env p lang) (world σ)).2
     (rooms σ) (relays σ) (next_stream σ) (next_uuid σ)
     (log σ ++ [RoomEmit p e_starting (subscribers (rooms σ) p);
                CreateContainer (container_config H env p lang) None;
                ConsoleLog;
                RoomEmit p e_failed (subscribers (rooms σ) p)])).
Proof.
  intros Hc. unfold execCode. unfold_async.
  destruct (rt_createContainer _ _) as [r w']. simpl in Hc. subst r. same_state.
Qed.

Lemma execCode_created p lang sch σ id :
  (rt_createContainer (container_config H env p lang) (world σ)).1 = Some id ->
  let w1 := (rt_createContainer (container_config H env p lang) (world σ)).2 in
  let w2 := (rt_start (ById id) w1).2 in
  let attached := (rt_attach (ById id) w2).1 in
  execCode H env p lang sch σ =
  ((if attached then Done tt else Throw TypeError),
   mkSt (rt_attach (ById id) w2).2 (rooms σ)
     (if attached
      then <[next_stream σ := {| r_project := p; r_school := sch |}]> (relays σ)
      else relays σ)
     (if attached then S (next_stream σ) else next_stream σ) (next_uuid σ)
     (log σ ++ [RoomEmit p e_starting (subscribers (rooms σ) p);
                CreateContainer (container_config H env p lang) (Some id);
                RoomEmit p e_created (subscribers (rooms σ) p);
                ContainerStart (ById id) (rt_start (ById id) w1).1;
                Attach (ById id) attached])).
Proof.
  intros Hc. unfold execCode. unfold_async.
  destruct (rt_createContainer _ _) as [r w']. simpl in Hc. subst r. simpl.
  destruct (rt_start _ _) as [s w'']. simpl.
  destruct (rt_attach _ _) as [[] w''']; same_state.
Qed.

Lemma onStdin_malformed socket data σ :
  falsy (projectId data) || falsy (stdin data) = true ->
  onStdin socket data σ = (Done tt, logged [SocketEmit socket (e_status 400)] σ).
Proof. intros Hv. unfold onStdin. rewrite Hv. reflexivity. Qed.

End Lifecycle.

(** ** Invariants are kept by every handler *)

Section Invariant.
Context {W : Type} `{RT : Runtime W}.
Variable H : Helpers.
Variable env : Env.
Variable Iw : W -> Prop.
Variable Ir : gmap nat (gset string) -> Prop.
Variable GR : string -> gset nat -> Prop.
Variable allowed : nat -> string -> Prop.
Hypothesis Hrt : runtime_preserves Iw.
Hypothesis Hemit : forall rs room, Ir rs -> GR room (subscribers rs room).
Hypothesis Hleave : forall rs s, Ir rs -> Ir (<[s := ∅]> rs).
Hypothesis Hjoin :
  forall rs s p, allowed s p -> Ir rs -> Ir (<[s := {[p]} ∪ rs !!! s]> rs).

Local Abbreviation keeps := (maintains (state_inv Iw Ir) (room_ok GR)).

Lemma keeps_ret {X} (x : X) : keeps (ret x).
Proof. intros σ HI. split; [exact HI|]. exists []. by rewrite app_nil_r. Qed.

Lemma keeps_throw {X} (e : Exn) : keeps (@throw St X e).
Proof. intros σ HI. split; [exact HI|]. exists []. by rewrite app_nil_r. Qed.

Lemma keeps_bind {X Y} (m : Async St X) (k : X -> Async St Y) :
  keeps m -> (forall x, keeps (k x)) -> keeps (bind m k).
Proof.
  intros Hm Hk σ HI. unfold bind.
  destruct (Hm σ HI) as (HI1 & t1 & Hl1 & Ht1).
  destruct (m σ) as [[x|e] σ1]; simpl in *.
  - destruct (Hk x σ1 HI1) as (HI2 & t2 & Hl2 & Ht2).
    split; [exact HI2|]. exists (t1 ++ t2). split.
    + by rewrite Hl2, Hl1, app_assoc.
    + by apply Forall_app.
  - split; [exact HI1|]. by exists t1.
Qed.

Lemma keeps_try_catch {X} (m : Async St X) (h : Exn -> Async St X) :
  keeps m -> (forall e, keeps (h e)) -> keeps (try_catch m h).
Proof.
  intros Hm Hh σ HI. unfold try_catch.
  destruct (Hm σ HI) as (HI1 & t1 & Hl1 & Ht1).
  destruct (m σ) as [[x|e] σ1]; simpl in *.
  - split; [exact HI1|]. by exists t1.
  - destruct (Hh e σ1 HI1) as (HI2 & t2 & Hl2 & Ht2).
    split; [exact HI2|]. exists (t1 ++ t2). split.
    + by rewrite Hl2, Hl1, app_assoc.
    + by apply Forall_app.
Qed.

Lemma keeps_tell (a : Act) : room_ok GR a -> keeps (tell a).
Proof.
  intros Ha σ HI. split; [exact HI|]. exists [a]. split; [done|].
  by apply Forall_singleton.
Qed.

Lemma keeps_socket_emit s e : keeps (socket_emit s e).
Proof. by apply keeps_tell. Qed.

Lemma keeps_io_to_emit room e : keeps (io_to_emit room e).
Proof.
  intros σ HI. unfold io_to_emit. apply keeps_tell; [|exact HI].
  apply Hemit, HI.
Qed.

Lemma keeps_leaveAll s : keeps (leaveAll s).
Proof.
  intros σ [HW HR]. split.
  - split; [exact HW|]. by apply Hleave.
  - exists [LeaveAll s]. split; [done|]. by apply Forall_singleton.
Qed.

Lemma keeps_join s p : allowed s p -> keeps (join s p).
Proof.
  intros Hal σ [HW HR]. split.
  - split; [exact HW|]. by apply Hjoin.
  - exists [Join s p]. split; [done|]. by apply Forall_singleton.
Qed.

Lemma keeps_await request act e :
  (forall w, Iw w -> Iw (request w).2) ->
  (forall ok, room_ok GR (act ok)) ->
  keeps (await request act e).
Proof.
  intros Hreq Hact σ [HW HR]. unfold await.
  specialize (Hreq _ HW). destruct (request (world σ)) as [ok w]. simpl in *.
  split; [by split|]. exists [act ok]. split; [done|]. by apply Forall_singleton.
Qed.

Lemma keeps_dropped request act :
  (forall w, Iw w -> Iw (request w).2) ->
  (forall ok, room_ok GR (act ok)) ->
  keeps (dropped request act).
Proof.
  intros Hreq Hact σ [HW HR]. unfold dropped.
  specialize (Hreq _ HW). destruct (request (world σ)) as [ok w]. simpl in *.
  split; [by split|]. exists [act ok]. split; [done|]. by apply Forall_singleton.
Qed.

Lemma keeps_callback {X} (request : W -> X * W) act :
  (forall w, Iw w -> Iw (request w).2) ->
  (forall x, room_ok GR (act x)) ->
  keeps (callback request act).
Proof.
  intros Hreq Hact σ [HW HR]. unfold callback.
  specialize (Hreq _ HW). destruct (request (world σ)) as [x w]. simpl in *.
  split; [by split|]. exists [act x]. split; [done|]. by apply Forall_singleton.
Qed.

Lemma keeps_fresh_uuid : keeps (fresh_uuid H).
Proof. intros σ HI. split; [exact HI|]. exists []. simpl. by rewrite app_nil_r. Qed.

Lemma keeps_listen r : keeps (listen r).
Proof. intros σ HI. split; [exact HI|]. exists []. simpl. by rewrite app_nil_r. Qed.

Create HintDb keeps.

#[local] Hint Resolve keeps_ret keeps_throw keeps_tell keeps_socket_emit keeps_io_to_emit
  keeps_leaveAll keeps_fresh_uuid keeps_listen : keeps.

Ltac keeps_step :=
  first
    [ match goal with
      | |- maintains _ _ (match ?v with _ => _ end) => destruct v
      end
    | apply keeps_bind; [|intros ?]
    | apply keeps_try_catch; [|intros ?]
    | apply keeps_await; [intros ? ?; by apply Hrt | done]
    | apply keeps_dropped; [intros ? ?; by apply Hrt | done]
    | apply keeps_callback; [intros ? ?; by apply Hrt | done]
    | solve [auto with keeps]
    | apply keeps_tell; done
    | done ].

Lemma keeps_containerStop p : keeps (containerStop env p).
Proof. unfold containerStop. repeat keeps_step. Qed.

Lemma keeps_onData p chunk : keeps (onData H p chunk).
Proof. unfold onData. repeat keeps_step. Qed.

Lemma keeps_onEnd p sch : keeps (onEnd env p sch).
Proof. unfold onEnd. repeat keeps_step. Qed.

Lemma keeps_execCode p lang sch : keeps (execCode H env p lang sch).
Proof. unfold execCode. repeat keeps_step. Qed.

Lemma keeps_containerStdin p input : keeps (containerStdin p input).
Proof. unfold containerStdin. repeat keeps_step. Qed.

Lemma keeps_onStart s data :
  (valid_start H data = true -> allowed s (str (projectId data))) ->
  keeps (onStart H env s data).
Proof.
  intros Hal. unfold onStart. unfold valid_start in Hal.
  destruct (falsy (projectId data) || negb (isValidLanguage H (language data))
            || falsy (schoolId data)); simpl in Hal.
  - apply keeps_socket_emit.
  - apply keeps_bind; [apply keeps_socket_emit|intros _].
    apply keeps_bind; [repeat keeps_step|intros []; [|apply keeps_ret]].
    apply keeps_bind; [apply keeps_containerStop|intros _].
    apply keeps_bind; [apply keeps_leaveAll|intros _].
    apply keeps_bind; [apply keeps_join; by apply Hal|intros _].
    apply keeps_execCode.
Qed.

Lemma keeps_onStdin s data : keeps (onStdin s data).
Proof.
  unfold onStdin. destruct (falsy (projectId data) || falsy (stdin data)).
  - apply keeps_socket_emit.
  - apply keeps_containerStdin.
Qed.

Lemma keeps_onStop s data : keeps (onStop env s data).
Proof.
  unfold onStop. destruct (falsy (projectId data)).
  - apply keeps_socket_emit.
  - apply keeps_bind; [apply keeps_containerStop|intros _; apply keeps_socket_emit].
Qed.

Lemma keeps_dispatch e : may_join H allowed e -> keeps (dispatch H env e).
Proof.
  destruct e as [s [] data|k chunk|k]; simpl; intros Hal.
  - by apply keeps_onStart.
  - apply keeps_onStdin.
  - apply keeps_onStop.
  - intros σ HI. destruct (relays σ !! k) as [r|].
    + by apply keeps_onData.
    + by apply keeps_ret.
  - intros σ HI. destruct (relays σ !! k) as [r|].
    + destruct (keeps_onEnd (r_project r) (r_school r)
                  (set_relays (delete k (relays σ)) σ) HI) as (HI' & t & Hl & Ht).
      split; [exact HI'|]. by exists t.
    + by apply keeps_ret.
Qed.

Lemma keeps_run evs :
  Forall (may_join H allowed) evs ->
  forall σ, state_inv Iw Ir σ ->
    state_inv Iw Ir (run H env evs σ) /\
    exists t, log (run H env evs σ) = log σ ++ t /\ Forall (room_ok GR) t.
Proof.
  induction 1 as [|e evs He Hevs IH]; intros σ HI.
  - split; [exact HI|]. exists []. simpl. by rewrite app_nil_r.
  - destruct (keeps_dispatch e He σ HI) as (HI1 & t1 & Hl1 & Ht1).
    destruct (IH _ HI1) as (HI2 & t2 & Hl2 & Ht2).
    split; [exact HI2|]. exists (t1 ++ t2). split.
    + unfold run in *. simpl. unfold step at 2. by rewrite Hl2, Hl1, app_assoc.
    + by apply Forall_app.
Qed.

End Invariant.

(** ** The reference runtime *)

Section DockerFacts.
Import Docker.
Implicit Types (w : World) (c : Sandbox) (cs : list Sandbox) (p : string).

Lemma names_update r f w :
  (forall c, sb_name (f c) = sb_name c) -> names (update r f w) = names w.
Proof.
  intros Hf. unfold names, update. simpl.
  induction (containers w) as [|c cs IH]; simpl; [done|].
  rewrite IH. by destruct (resolves r c); rewrite ?Hf.
Qed.

Lemma names_filter_subset (g : Sandbox -> bool) cs x :
  x ∈ map sb_name (List.filter g cs) -> x ∈ map sb_name cs.
Proof.
  induction cs as [|c cs IH]; simpl; [done|].
  destruct (g c); simpl; rewrite ?elem_of_cons; intuition.
Qed.

Lemma names_filter_NoDup (g : Sandbox -> bool) cs :
  NoDup (map sb_name cs) -> NoDup (map sb_name (List.filter g cs)).
Proof.
  induction cs as [|c cs IH]; simpl; [done|].
  rewrite NoDup_cons. intros [Hc Hcs].
  destruct (g c); simpl; [|by apply IH].
  apply NoDup_cons. split; [|by apply IH].
  intros Hin. by apply Hc, (names_filter_subset g).
Qed.

Lemma name_in_use_spec p w : name_in_use p w = true <-> p ∈ names w.
Proof.
  unfold name_in_use, names. induction (containers w) as [|c cs IH]; simpl.
  - split; [done|]. by intros ?%elem_of_nil.
  - rewrite orb_true_iff, IH, elem_of_cons, String.eqb_eq. done.
Qed.

Lemma named_nil p cs :
  List.filter (fun c => String.eqb p (sb_name c)) cs = [] <-> p ∉ map sb_name cs.
Proof.
  induction cs as [|c cs IH]; simpl.
  - split; [|done]. intros _ ?%elem_of_nil. done.
  - rewrite elem_of_cons. destruct (String.eqb p (sb_name c)) eqn:E.
    + apply String.eqb_eq in E. split; [done|]. intros Hn. destruct Hn. by left.
    + apply String.eqb_neq in E. rewrite IH. intuition.
Qed.

Lemma live_nil p w : live p w = [] <-> p ∉ names w.
Proof. apply named_nil. Qed.

Lemma live_at_most_one p w : NoDup (names w) -> (length (live p w) <= 1)%nat.
Proof.
  unfold names, live. induction (containers w) as [|c cs IH]; simpl; [lia|].
  rewrite NoDup_cons. intros [Hc Hcs].
  destruct (String.eqb p (sb_name c)) eqn:E; [|by apply IH].
  apply String.eqb_eq in E. subst p. simpl.
  apply named_nil in Hc. rewrite Hc. simpl. lia.
Qed.

Lemma find_name_none p w :
  find (resolves (ByName p)) (containers w) = None <-> live p w = [].
Proof.
  unfold live. simpl. induction (containers w) as [|c cs IH]; simpl; [done|].
  destruct (String.eqb p (sb_name c)); [done|exact IH].
Qed.

Lemma named_after_filter p cs :
  List.filter (fun c => String.eqb p (sb_name c))
    (List.filter (fun c => negb (resolves (ByName p) c)) cs) = [].
Proof.
  induction cs as [|c cs IH]; simpl; [done|].
  destruct (String.eqb p (sb_name c)) eqn:Ec; simpl; [|rewrite Ec]; apply IH.
Qed.

Lemma live_after_remove p w : live p (remove (ByName p) w).2 = [].
Proof.
  unfold remove. destruct (find _ _) eqn:E; simpl.
  - apply named_after_filter.
  - by apply find_name_none.
Qed.

(** After a teardown of [p] no sandbox is named [p], whatever the signal and
    whatever was there before. *)
Lemma stopped_live env p w : live p (stopped env p w) = [].
Proof. unfold stopped. simpl. apply live_after_remove. Qed.

(** A teardown of a name that is not in use fails twice and changes nothing. *)
Lemma stopped_absent env p w :
  live p w = [] ->
  kill_ok env p w = false /\ remove_ok env p w = false /\ stopped env p w = w.
Proof.
  intros Hl. apply find_name_none in Hl.
  unfold kill_ok, remove_ok, stopped, killed, getContainer. simpl.
  unfold kill. rewrite Hl. simpl. unfold remove. rewrite Hl. done.
Qed.

Lemma kill_names r sig w : names (kill r sig w).2 = names w.
Proof.
  unfold kill. destruct (find _ _) as [c|]; [|done].
  destruct (sb_running c); [|done]. simpl.
  destruct (fatal sig); [|done]. by apply names_update.
Qed.

Lemma start_names r w : names (start r w).2 = names w.
Proof.
  unfold start. destruct (find _ _) as [c|]; [|done].
  destruct (sb_running c); [done|]. simpl. by apply names_update.
Qed.

Lemma remove_names_NoDup r w : NoDup (names w) -> NoDup (names (remove r w).2).
Proof.
  unfold remove. destruct (find _ _); [|done]. simpl.
  apply names_filter_NoDup.
Qed.

Lemma createContainer_names_NoDup o w :
  NoDup (names w) -> NoDup (names (createContainer o w).2).
Proof.
  unfold createContainer. intros Hnd.
  destruct (existsb _ _ && negb (name_in_use (name o) w)) eqn:E; [|done].
  apply andb_true_iff in E as [_ E]. apply negb_true_iff in E.
  unfold names. simpl. rewrite map_app. simpl.
  apply NoDup_app. split; [done|]. split; [|apply NoDup_singleton].
  intros x Hx ->%list_elem_of_singleton.
  apply name_in_use_spec in Hx. unfold sb_name in Hx. simpl in Hx. congruence.
Qed.

(** The name of a container is unique on the host, whatever is asked of the
    daemon. *)
Lemma docker_names_unique : runtime_preserves (fun w => NoDup (names w)).
Proof.
  split; simpl; try done.
  - apply createContainer_names_NoDup.
  - intros r sig w. by rewrite kill_names.
  - apply remove_names_NoDup.
  - intros r w. by rewrite start_names.
  - intros r i w. unfold write. by rewrite names_update.
Qed.

End DockerFacts.

(** ** parseInt reads back what toString prints *)

Section ParseInt.












End ParseInt.

(** ** Logs and subscriber sets *)

Section LogFacts.
Context {W : Type}.
Implicit Types (σ : @St W).

Lemma since_app σ σ' t : log σ' = log σ ++ t -> since σ σ' = t.
Proof. intros Hl. unfold since. rewrite Hl. apply drop_app_length. Qed.

Lemma since_mkSt σ w rs rl ns nu t :
  since σ (mkSt w rs rl ns nu (log σ ++ t)) = t.
Proof. by apply since_app. Qed.

Lemma elem_of_subscribers (rs : gmap nat (gset string)) room s :
  s ∈ subscribers rs room <-> exists set, rs !! s = Some set /\ room ∈ set.
Proof.
  unfold subscribers. rewrite elem_of_dom. unfold is_Some.
  setoid_rewrite map_lookup_filter_Some. simpl. naive_solver.
Qed.

Lemma subscribers_joined (rs : gmap nat (gset string)) room s :
  s ∈ subscribers (<[s := {[room]}]> rs) room.
Proof.
  apply elem_of_subscribers. exists {[room]}.
  split; [apply lookup_insert_eq|set_solver].
Qed.

End LogFacts.

(** * The properties of the specification *)

Local Close Scope Z_scope.

(** C2, as stated, fails: on a host where sandbox abc is running, the
    handler of [stop {projectId: "abc"}] logs the settled kill and the
    settled removal before it emits [{status: 200, running: false}] to the
    caller; the acknowledgement does not precede the runtime's
    confirmations. *)
Lemma stop_ack_waits_for_teardown :
  let σ := boot (host [sandbox_abc] ["palcode/python"]) in
  let σ' := (onStop no_env 7 stop_abc σ).2 in
  log σ' = [Kill (ByName "abc") "SIGKILL" true;
            Remove (ByName "abc") true;
            SocketEmit 7 e_ended]
  /\ ack_precedes_teardown 7 (log σ') = false.
Proof. split; reflexivity. Qed.

(** C2, amended: for every [stop] command that carries a [projectId], on any
    runtime, the dispatcher awaits the teardown and then emits
    [{status: 200, running: false}] to the caller: the kill attempt and the
    removal attempt have both settled, whatever their outcomes, when the
    acknowledgement is emitted, and the acknowledgement is the only event of
    the handler. *)
Theorem stop_acknowledges_after_teardown :
  forall (W : Type) (RT : Runtime W) (env : Env) (s : nat) (data : Data) (σ : @St W),
    falsy (projectId data) = false ->
    let p := str (projectId data) in
    exists σ',
      onStop env s data σ = (Done tt, σ') /\
      since σ σ' = [Kill (getContainer p) (stop_signal env) (kill_ok env p (world σ));
                    Remove (getContainer p) (remove_ok env p (world σ));
                    SocketEmit s e_ended] /\
      acts_before (is_ack s) (since σ σ') =
        Some [Kill (getContainer p) (stop_signal env) (kill_ok env p (world σ));
              Remove (getContainer p) (remove_ok env p (world σ))] /\
      world σ' = stopped env p (world σ).
Proof.
  intros W RT env s data σ Hp p. eexists. split; [by apply onStop_eq|].
  rewrite since_mkSt. unfold teardown_acts. simpl.
  rewrite Nat.eqb_refl. done.
Qed.

Lemma stop_acknowledges_after_teardown_witness :
  falsy (projectId stop_abc) = false /\
  exists σ',
    onStop no_env 7 stop_abc (boot (host [sandbox_abc] ["palcode/python"])) = (Done tt, σ') /\
    since (boot (host [sandbox_abc] ["palcode/python"])) σ' =
      [Kill (ByName "abc") "SIGKILL" true; Remove (ByName "abc") true; SocketEmit 7 e_ended] /\
    acts_before (is_ack 7) (since (boot (host [sandbox_abc] ["palcode/python"])) σ') =
      Some [Kill (ByName "abc") "SIGKILL" true; Remove (ByName "abc") true] /\
    world σ' = host [] ["palcode/python"].
Proof.
  split; [reflexivity|].
  apply (stop_acknowledges_after_teardown Docker.World docker_runtime no_env 7 stop_abc
           (boot (host [sandbox_abc] ["palcode/python"]))).
  reflexivity.
Defined.

(** C8: the teardown never throws and always makes both attempts: on any
    runtime [containerStop] logs a kill attempt and a removal attempt,
    whatever the outcome of either, and completes normally. It is idempotent:
    on the reference runtime a second teardown fails twice, changes nothing
    and still completes. A [stop] for a project with no live sandbox
    completes without error and the caller receives
    [{status: 200, running: false}]. *)
Theorem teardown_is_best_effort :
  (forall (W : Type) (RT : Runtime W) (env : Env) (p : string) (σ : @St W),
     containerStop env p σ =
     (Done tt,
      mkSt (stopped env p (world σ)) (rooms σ) (relays σ) (next_stream σ) (next_uuid σ)
        (log σ ++ [Kill (getContainer p) (stop_signal env) (kill_ok env p (world σ));
                   Remove (getContainer p) (remove_ok env p (world σ))])))
  /\
  (forall (env : Env) (p : string) (σ : @St Docker.World),
     let σ1 := (containerStop env p σ).2 in
     containerStop env p σ1 =
     (Done tt, logged [Kill (getContainer p) (stop_signal env) false;
                       Remove (getContainer p) false] σ1))
  /\
  (forall (env : Env) (s : nat) (data : Data) (σ : @St Docker.World),
     falsy (projectId data) = false ->
     Docker.live (str (projectId data)) (world σ) = [] ->
     onStop env s data σ =
     (Done tt, logged [Kill (getContainer (str (projectId data))) (stop_signal env) false;
                       Remove (getContainer (str (projectId data))) false;
                       SocketEmit s e_ended] σ)).
Proof.
  split; [|split].
  - intros. apply containerStop_eq.
  - intros env p σ σ1. rewrite containerStop_eq.
    assert (Hl : Docker.live p (world σ1) = []).
    { subst σ1. rewrite containerStop_eq. simpl. apply stopped_live. }
    destruct (stopped_absent env p _ Hl) as (Hk & Hr & Hw).
    unfold teardown_acts. rewrite Hk, Hr, Hw. by destruct σ1.
  - intros env s data σ Hp Hl. rewrite onStop_eq by done.
    destruct (stopped_absent env _ _ Hl) as (Hk & Hr & Hw).
    unfold teardown_acts. rewrite Hk, Hr, Hw. by destruct σ.
Qed.

Lemma teardown_is_best_effort_witness :
  falsy (projectId stop_abc) = false /\
  Docker.live "abc" (host [] ["palcode/python"]) = [] /\
  onStop no_env 7 stop_abc (boot (host [] ["palcode/python"])) =
  (Done tt, logged [Kill (ByName "abc") "SIGKILL" false; Remove (ByName "abc") false;
                    SocketEmit 7 e_ended] (boot (host [] ["palcode/python"]))).
Proof.
  split; [reflexivity|]. split; [reflexivity|].
  apply (proj2 (proj2 teardown_is_best_effort) no_env 7 stop_abc
           (boot (host [] ["palcode/python"]))); reflexivity.
Defined.

(** C10: validation tests falsiness, not absence. A [stdin] command whose
    [stdin] is the empty string, and a [start] command whose [projectId] or
    [schoolId] is the empty string, are answered with a direct
    [{status: 400}] and nothing else happens, exactly as when the field is
    absent. *)
Theorem empty_fields_are_rejected :
  forall (W : Type) (RT : Runtime W) (H : Helpers) (env : Env) (s : nat)
         (p l sch i : option string) (σ : @St W),
    let rejected := (Done tt, logged [SocketEmit s (e_status 400)] σ) in
    (onStdin s (command p l sch (Some "")) σ = rejected /\
     onStdin s (command p l sch None) σ = rejected) /\
    (onStart H env s (command (Some "") l sch i) σ = rejected /\
     onStart H env s (command None l sch i) σ = rejected) /\
    (onStart H env s (command p l (Some "") i) σ = rejected /\
     onStart H env s (command p l None i) σ = rejected).
Proof.
  intros W RT H env s p l sch i σ rejected. subst rejected.
  split; [split|split; split].
  - apply onStdin_malformed. simpl. apply orb_true_r.
  - apply onStdin_malformed. simpl. apply orb_true_r.
  - apply onStart_malformed. reflexivity.
  - apply onStart_malformed. reflexivity.
  - apply onStart_malformed. unfold valid_start. simpl. by rewrite orb_true_r.
  - apply onStart_malformed. unfold valid_start. simpl. by rewrite orb_true_r.
Qed.

(** C7: when the code fetch of a [start] fails, the sender alone is told
    [{status: 404}] (after the acknowledgement of the request) and nothing
    changes: on any runtime the only request made is the fetch itself, no
    room membership and no relay changes; on the reference runtime the
    containers are exactly those that were there, so no sandbox is created
    and none is torn down. *)
Theorem fetch_failure_changes_nothing :
  (forall (W : Type) (RT : Runtime W) (H : Helpers) (env : Env) (s : nat) (data : Data)
          (σ : @St W),
     valid_start H data = true ->
     fetch_ok data (world σ) = false ->
     exists σ',
       onStart H env s data σ = (Done tt, σ') /\
       since σ σ' = [SocketEmit s e_ack;
                     CloneCode (str (projectId data)) (str (schoolId data)) false;
                     SocketEmit s (e_status 404)] /\
       world σ' = fetched data (world σ) /\
       rooms σ' = rooms σ /\ relays σ' = relays σ)
  /\
  (forall (H : Helpers) (env : Env) (s : nat) (data : Data) (σ : @St Docker.World),
     valid_start H data = true ->
     fetch_ok data (world σ) = false ->
     Docker.containers (world (onStart H env s data σ).2) = Docker.containers (world σ)).
Proof.
  split.
  - intros W RT H env s data σ Hv Hf. eexists.
    split; [by apply onStart_not_found|]. by rewrite since_mkSt.
  - intros H env s data σ Hv Hf. by rewrite onStart_not_found.
Qed.

Lemma fetch_failure_changes_nothing_witness :
  let data := command (Some "abc") (Some "python") (Some "s2") None in
  let σ := boot (host [sandbox_abc] ["palcode/python"]) in
  valid_start demo_helpers data = true /\
  fetch_ok data (world σ) = false /\
  Docker.containers (world (onStart demo_helpers no_env 7 data σ).2) = [sandbox_abc].
Proof.
  split; [reflexivity|]. split; [reflexivity|].
  apply (proj2 fetch_failure_changes_nothing demo_helpers no_env 7
           (command (Some "abc") (Some "python") (Some "s2") None)
           (boot (host [sandbox_abc] ["palcode/python"]))); reflexivity.
Defined.

(** C4: when the output stream of a session ends, its ['end'] listener
    broadcasts [{status: 200, running: false}] to the subscriber set once,
    then tears the sandbox down once (one kill attempt, one removal attempt),
    then calls [saveChanges] once, on the world the teardown left and
    whatever the teardown did: the log entry of the call carries the outcome
    of that very request, the world afterwards is the one the request
    returns, and the listener completes exactly when the request succeeds.
    The stream's listeners are gone afterwards, so a further ['end'] or
    ['data'] of that stream does nothing. *)
Theorem relay_ends_exactly_once :
  forall (W : Type) (RT : Runtime W) (H : Helpers) (env : Env) (k : nat) (r : Relay)
         (σ : @St W),
    relays σ !! k = Some r ->
    let p := r_project r in
    let request := rt_saveChanges p (r_school r) (stopped env p (world σ)) in
    exists σ',
      dispatch H env (StreamEnd k) σ
        = ((if request.1 then Done tt else Throw StorageError), σ') /\
      since σ σ' = [RoomEmit p e_ended (subscribers (rooms σ) p);
                    Kill (getContainer p) (stop_signal env) (kill_ok env p (world σ));
                    Remove (getContainer p) (remove_ok env p (world σ));
                    SaveChanges p (r_school r) request.1] /\
      world σ' = request.2 /\
      rooms σ' = rooms σ /\
      relays σ' = delete k (relays σ) /\
      dispatch H env (StreamEnd k) σ' = (Done tt, σ') /\
      (forall chunk, dispatch H env (StreamData k chunk) σ' = (Done tt, σ')).
Proof.
  intros W RT H env k r σ Hr p request. subst request p.
  simpl. rewrite Hr, onEnd_eq. cbv zeta.
  eexists. split; [reflexivity|].
  erewrite since_app; [|simpl; reflexivity].
  split; [reflexivity|]. split; [reflexivity|].
  split; [reflexivity|]. split; [reflexivity|].
  simpl. rewrite lookup_delete_eq. done.
Qed.

Lemma relay_ends_exactly_once_witness :
  let σ := run demo_helpers no_env [Command 7 Start start_abc]
             (boot (host [] ["palcode/python"])) in
  let r := {| r_project := "abc"; r_school := "s1" |} in
  let p := r_project r in
  let request := rt_saveChanges p (r_school r) (stopped no_env p (world σ)) in
  relays σ !! 0 = Some r /\
  request.1 = true /\
  exists σ',
    dispatch demo_helpers no_env (StreamEnd 0) σ
      = ((if request.1 then Done tt else Throw StorageError), σ') /\
    since σ σ' = [RoomEmit p e_ended (subscribers (rooms σ) p);
                  Kill (getContainer p) (stop_signal no_env) (kill_ok no_env p (world σ));
                  Remove (getContainer p) (remove_ok no_env p (world σ));
                  SaveChanges p (r_school r) request.1] /\
    world σ' = request.2 /\
    rooms σ' = rooms σ /\
    relays σ' = delete 0 (relays σ) /\
    dispatch demo_helpers no_env (StreamEnd 0) σ' = (Done tt, σ') /\
    (forall chunk, dispatch demo_helpers no_env (StreamData 0 chunk) σ' = (Done tt, σ')).
Proof.
  split; [reflexivity|]. split; [reflexivity|].
  apply (relay_ends_exactly_once Docker.World docker_runtime demo_helpers no_env 0
           {| r_project := "abc"; r_school := "s1" |}).
  reflexivity.
Defined.

(** What a [start] does when the creation request fails, on any runtime. *)
Lemma onStart_create_failed {W : Type} `{RT : Runtime W} (H : Helpers) (env : Env)
    (s : nat) (data : Data) (σ : @St W) :
  valid_start H data = true ->
  fetch_ok data (world σ) = true ->
  create_result H env data (world σ) = None ->
  let p := str (projectId data) in
  let subs := subscribers (<[s := {[p]}]> (rooms σ)) p in
  onStart H env s data σ =
  (Done tt,
   mkSt (after_create H env data (world σ)) (<[s := {[p]}]> (rooms σ)) (relays σ)
     (next_stream σ) (next_uuid σ)
     (log σ ++ [SocketEmit s e_ack;
                CloneCode p (str (schoolId data)) true;
                Kill (getContainer p) (stop_signal env)
                  (kill_ok env p (fetched data (world σ)));
                Remove (getContainer p) (remove_ok env p (fetched data (world σ)));
                LeaveAll s;
                Join s p;
                RoomEmit p e_starting subs;
                CreateContainer (container_config H env p (language data)) None;
                ConsoleLog;
                RoomEmit p e_failed subs])).
Proof.
  intros Hv Hf Hc p subs. rewrite onStart_accepted by done.
  rewrite execCode_failed by exact Hc.
  unfold at_execCode, after_create, teardown_acts. simpl.
  rewrite <- !app_assoc. reflexivity.
Qed.

Lemma createContainer_refused o w :
  (Docker.createContainer o w).1 = None -> (Docker.createContainer o w).2 = w.
Proof. unfold Docker.createContainer. by destruct (_ && _). Qed.

(** C3, as stated, fails: on a host without the image the creation of the
    sandbox of [start {projectId: "abc", ...}] fails, and room abc receives
    ["Starting..."] and then [{status: 500, message: "Run failed. Try
    again.", running: false}]; no event of the shape
    [{status: 200, message, running: false}] is sent. *)
Lemma creation_failure_has_status_500 :
  let σ := boot (host [] []) in
  let σ' := (onStart demo_helpers no_env 7 start_abc σ).2 in
  create_result demo_helpers no_env start_abc (world σ) = None /\
  room_events "abc" (log σ') = [e_starting; e_failed] /\
  status e_failed = 500%Z /\
  length (List.filter failure_200 (room_events "abc" (log σ'))) <> 1.
Proof. repeat split; try reflexivity. vm_compute. discriminate. Qed.

(** C3, amended: when the creation of the sandbox fails for a [start], the
    whole subscriber set of [projectId] (the sender included) receives,
    after ["Starting..."], exactly one event
    [{status: 500, message: "Run failed. Try again.", running: false}];
    no output relay is attached, and the creation is requested once, with no
    retry. *)
Theorem creation_failure_is_reported_once :
  forall (W : Type) (RT : Runtime W) (H : Helpers) (env : Env) (s : nat) (data : Data)
         (σ : @St W),
    valid_start H data = true ->
    fetch_ok data (world σ) = true ->
    create_result H env data (world σ) = None ->
    let p := str (projectId data) in
    exists σ' subs,
      onStart H env s data σ = (Done tt, σ') /\
      omap (fun a => match a with RoomEmit r e to => Some (r, e, to) | _ => None end)
        (since σ σ') = [(p, e_starting, subs); (p, e_failed, subs)] /\
      subs = subscribers (rooms σ') p /\ s ∈ subs /\
      relays σ' = relays σ /\ next_stream σ' = next_stream σ /\
      List.filter is_create (since σ σ')
        = [CreateContainer (container_config H env p (language data)) None].
Proof.
  intros W RT H env s data σ Hv Hf Hc p. eexists _, _.
  split; [by apply onStart_create_failed|].
  rewrite since_mkSt. simpl.
  split; [reflexivity|]. split; [reflexivity|].
  split; [apply subscribers_joined|]. done.
Qed.

Lemma creation_failure_is_reported_once_witness :
  let σ := boot (host [] []) in
  valid_start demo_helpers start_abc = true /\
  fetch_ok start_abc (world σ) = true /\
  create_result demo_helpers no_env start_abc (world σ) = None /\
  exists σ' subs,
    onStart demo_helpers no_env 7 start_abc σ = (Done tt, σ') /\
    omap (fun a => match a with RoomEmit r e to => Some (r, e, to) | _ => None end)
      (since σ σ') = [("abc", e_starting, subs); ("abc", e_failed, subs)] /\
    subs = subscribers (rooms σ') "abc" /\ 7 ∈ subs /\
    relays σ' = relays σ /\ next_stream σ' = next_stream σ /\
    List.filter is_create (since σ σ')
      = [CreateContainer (container_config demo_helpers no_env "abc" (Some "python")) None].
Proof.
  split; [reflexivity|]. split; [reflexivity|]. split; [reflexivity|].
  apply (creation_failure_is_reported_once Docker.World docker_runtime demo_helpers no_env 7
           start_abc (boot (host [] []))); reflexivity.
Defined.

(** C9: a [start] that passes validation and the code fetch and then fails
    at the creation of the container is not atomic. The failure event is the
    last thing the handler does; before it, the kill and the removal of the
    previous sandbox have settled and the sender has left all its rooms and
    joined [projectId]. When the failure event is emitted the sender's
    membership is exactly [{projectId}], the sender is among the recipients,
    and on the reference runtime no sandbox named [projectId] is left. *)
Theorem failed_start_is_not_atomic :
  forall (H : Helpers) (env : Env) (s : nat) (data : Data) (σ : @St Docker.World),
    valid_start H data = true ->
    fetch_ok data (world σ) = true ->
    create_result H env data (world σ) = None ->
    let p := str (projectId data) in
    exists σ' subs k r,
      onStart H env s data σ = (Done tt, σ') /\
      since σ σ' = [SocketEmit s e_ack;
                    CloneCode p (str (schoolId data)) true;
                    Kill (getContainer p) (stop_signal env) k;
                    Remove (getContainer p) r;
                    LeaveAll s;
                    Join s p;
                    RoomEmit p e_starting subs;
                    CreateContainer (container_config H env p (language data)) None;
                    ConsoleLog;
                    RoomEmit p e_failed subs] /\
      s ∈ subs /\
      rooms σ' !! s = Some {[p]} /\
      Docker.live p (world σ') = [].
Proof.
  intros H env s data σ Hv Hf Hc p. eexists _, _, _, _.
  split; [by apply onStart_create_failed|].
  rewrite since_mkSt. simpl.
  split; [reflexivity|].
  split; [apply subscribers_joined|].
  split; [apply lookup_insert_eq|].
  unfold after_create. unfold create_result in Hc.
  apply createContainer_refused in Hc. simpl in Hc |- *. rewrite Hc.
  apply stopped_live.
Qed.

Lemma failed_start_is_not_atomic_witness :
  let σ := boot (host [sandbox_abc] []) in
  valid_start demo_helpers start_abc = true /\
  fetch_ok start_abc (world σ) = true /\
  create_result demo_helpers no_env start_abc (world σ) = None /\
  Docker.live "abc" (world σ) = [sandbox_abc] /\
  exists σ' subs k r,
    onStart demo_helpers no_env 7 start_abc σ = (Done tt, σ') /\
    since σ σ' = [SocketEmit 7 e_ack;
                  CloneCode "abc" "s1" true;
                  Kill (ByName "abc") "SIGKILL" k;
                  Remove (ByName "abc") r;
                  LeaveAll 7;
                  Join 7 "abc";
                  RoomEmit "abc" e_starting subs;
                  CreateContainer (container_config demo_helpers no_env "abc"
                                     (Some "python")) None;
                  ConsoleLog;
                  RoomEmit "abc" e_failed subs] /\
    7 ∈ subs /\
    rooms σ' !! 7 = Some {["abc"]} /\
    Docker.live "abc" (world σ') = [].
Proof.
  split; [reflexivity|]. split; [reflexivity|]. split; [reflexivity|].
  split; [reflexivity|].
  apply (failed_start_is_not_atomic demo_helpers no_env 7 start_abc
           (boot (host [sandbox_abc] []))); reflexivity.
Defined.

(** What [execCode] leaves alone: the rooms; and what it logs: one creation
    request, with the options of [container_config], and no membership
    change. *)
Lemma execCode_frame {W : Type} `{RT : Runtime W} (H : Helpers) (env : Env)
    (p : string) (lang : option string) (sch : string) (σ : @St W) :
  exists res σ' t,
    execCode H env p lang sch σ = (res, σ') /\
    rooms σ' = rooms σ /\
    log σ' = log σ ++ t /\
    List.filter is_membership t = [] /\
    List.filter is_create t =
      [CreateContainer (container_config H env p lang)
         (rt_createContainer (container_config H env p lang) (world σ)).1].
Proof.
  destruct ((rt_createContainer (container_config H env p lang) (world σ)).1)
    as [id|] eqn:Hc.
  - eexists _, _, _. split; [by apply execCode_created|]. done.
  - eexists _, _, _. split; [by apply execCode_failed|]. done.
Qed.

Lemma starts_spec s p s' data :
  starts s p (Command s' Start data) = true <-> s' = s /\ projectId data = Some p.
Proof.
  simpl. rewrite andb_true_iff, Nat.eqb_eq.
  destruct (projectId data) as [q|].
  - rewrite String.eqb_eq. split; intros [? ?]; split; congruence.
  - split; intros [? ?]; congruence.
Qed.

Lemma valid_start_projectId H data :
  valid_start H data = true -> projectId data = Some (str (projectId data)).
Proof.
  unfold valid_start. destruct (projectId data); simpl; [done|discriminate].
Qed.

(** C6, as stated, fails for a valid [start] whose code fetch fails: socket 7
    is in room xyz; its [start] for project abc passes validation but the
    store does not know abc for school s2; the handler returns after
    [{status: 404}] with no [leaveAll] and no [join], socket 7 is still in
    room xyz, and the next output chunk of xyz reaches it. *)
Lemma valid_start_may_keep_membership :
  let σ := run demo_helpers no_env
             [Command 7 Start (command (Some "xyz") (Some "python") (Some "s1") None)]
             (boot {| Docker.containers := []; Docker.images := ["palcode/python"];
                      Docker.next_id := 0;
                      Docker.remote := [("abc", "s1"); ("xyz", "s1")] |}) in
  let data := command (Some "abc") (Some "python") (Some "s2") None in
  let σ1 := step demo_helpers no_env σ (Command 7 Start data) in
  let later := since σ1 (run demo_helpers no_env [StreamData 0 "out"] σ1) in
  rooms σ !! 7 = Some {["xyz"]} /\
  valid_start demo_helpers data = true /\
  List.filter is_membership (since σ σ1) = [] /\
  rooms σ1 !! 7 = Some {["xyz"]} /\
  received 7 later = [e_chunk "out" "id-0"] /\
  ~ Forall (unheard 7 "xyz") later.
Proof.
  intros σ data σ1 later.
  split; [reflexivity|]. split; [reflexivity|]. split; [reflexivity|].
  split; [reflexivity|]. split; [vm_compute; reflexivity|].
  intros Hall.
  assert (Hlater : later = [RoomEmit "xyz" (e_chunk "out" "id-0") {[7]}])
    by (vm_compute; reflexivity).
  rewrite Hlater in Hall. apply Forall_cons in Hall as [Hhead _].
  apply (Hhead eq_refl). by apply elem_of_singleton.
Qed.

(** C6, amended: a valid [start] whose code fetch succeeds replaces the
    subscriber membership of its connection exactly once: the handler logs
    one [leaveAll] and then one [join], after which the connection is in
    room [projectId] and in no other. From then on, as long as the connection
    sends no [start] for another project A, no event broadcast to room A
    reaches it, whatever commands and stream events the process handles. *)
Theorem start_replaces_membership :
  forall (W : Type) (RT : Runtime W) (H : Helpers) (env : Env) (s : nat) (data : Data)
         (σ : @St W) (A : string) (evs : list Ev),
    valid_start H data = true ->
    fetch_ok data (world σ) = true ->
    String.eqb A (str (projectId data)) = false ->
    forallb (fun e => negb (starts s A e)) evs = true ->
    let σ1 := step H env σ (Command s Start data) in
    List.filter is_membership (since σ σ1) = [LeaveAll s; Join s (str (projectId data))] /\
    rooms σ1 !! s = Some {[str (projectId data)]} /\
    Forall (unheard s A) (since σ1 (run H env evs σ1)).
Proof.
  intros W RT H env s data σ A evs Hv Hf HA Hevs σ1.
  apply String.eqb_neq in HA.
  assert (Hσ1 : List.filter is_membership (since σ σ1)
                = [LeaveAll s; Join s (str (projectId data))] /\
                rooms σ1 !! s = Some {[str (projectId data)]}).
  { subst σ1. unfold step. simpl. rewrite onStart_accepted by done.
    destruct (execCode_frame H env (str (projectId data)) (language data)
                (str (schoolId data)) (at_execCode env s data σ))
      as (res & σ' & t & -> & Hr & Hl & Hm & _).
    simpl. split.
    - erewrite since_app; [|rewrite Hl; simpl; rewrite <- app_assoc; reflexivity].
      rewrite List.filter_app, Hm. reflexivity.
    - rewrite Hr. simpl. apply lookup_insert_eq. }
  destruct Hσ1 as [Hm Hr]. split; [exact Hm|]. split; [exact Hr|].
  destruct (keeps_run H env (fun _ => True) (fun rs => A ∉ rs !!! s)
              (fun room to => room = A -> s ∉ to)
              (fun s' p' => ~ (s' = s /\ p' = A))) with (evs := evs) (σ := σ1)
    as (_ & t & Hl & Ht).
  - by split.
  - intros rs room HI -> (set & Hs & Hin)%elem_of_subscribers.
    apply HI. by rewrite lookup_total_alt, Hs.
  - intros rs s' HI. destruct (decide (s' = s)) as [->|Hne].
    + rewrite lookup_total_insert_eq. set_solver.
    + by rewrite lookup_total_insert_ne.
  - intros rs s' p' Hal HI. destruct (decide (s' = s)) as [->|Hne].
    + rewrite lookup_total_insert_eq, not_elem_of_union, not_elem_of_singleton.
      split; [|exact HI]. intros ->. by apply Hal.
    + by rewrite lookup_total_insert_ne.
  - apply Forall_forall. intros e He.
    rewrite forallb_forall in Hevs. specialize (Hevs e).
    rewrite <- list_elem_of_In in Hevs. specialize (Hevs He).
    apply negb_true_iff in Hevs.
    destruct e as [s' [] d|k chunk|k]; simpl; try done.
    intros Hvd [-> HpA].
    apply valid_start_projectId in Hvd. rewrite HpA in Hvd.
    assert (starts s A (Command s Start d) = true) by by apply starts_spec.
    congruence.
  - split; [done|]. simpl. rewrite lookup_total_alt, Hr. simpl. set_solver.
  - erewrite since_app by exact Hl. exact Ht.
Qed.

Lemma start_replaces_membership_witness :
  let σ := run demo_helpers no_env
             [Command 7 Start (command (Some "xyz") (Some "python") (Some "s1") None)]
             (boot {| Docker.containers := []; Docker.images := ["palcode/python"];
                      Docker.next_id := 0;
                      Docker.remote := [("abc", "s1"); ("xyz", "s1")] |}) in
  let evs := [Command 8 Start (command (Some "xyz") (Some "python") (Some "s1") None);
              StreamData 1 "hello"; Command 7 Stdin (command (Some "abc") None None (Some "1"));
              StreamEnd 1; StreamData 0 "late"] in
  let σ1 := step demo_helpers no_env σ (Command 7 Start start_abc) in
  rooms σ !! 7 = Some {["xyz"]} /\
  valid_start demo_helpers start_abc = true /\
  fetch_ok start_abc (world σ) = true /\
  String.eqb "xyz" (str (projectId start_abc)) = false /\
  forallb (fun e => negb (starts 7 "xyz" e)) evs = true /\
  List.filter is_membership (since σ σ1) = [LeaveAll 7; Join 7 "abc"] /\
  rooms σ1 !! 7 = Some {["abc"]} /\
  Forall (unheard 7 "xyz") (since σ1 (run demo_helpers no_env evs σ1)).
Proof.
  split; [reflexivity|]. split; [reflexivity|]. split; [reflexivity|].
  split; [reflexivity|]. split; [reflexivity|].
  apply (start_replaces_membership Docker.World docker_runtime demo_helpers no_env 7
           start_abc); reflexivity.
Defined.







Lemma may_join_any H e : may_join H (fun _ _ => True) e.
Proof. by destruct e as [s [] d| |]. Qed.

(** On the reference runtime the container names stay unique whatever the
    process handles. *)
Lemma names_stay_unique H env (evs : list Ev) (σ : @St Docker.World) :
  NoDup (Docker.names (world σ)) -> NoDup (Docker.names (world (run H env evs σ))).
Proof.
  intros Hnd.
  destruct (keeps_run H env (fun w => NoDup (Docker.names w)) (fun _ => True)
              (fun _ _ => True) (fun _ _ => True)) with (evs := evs) (σ := σ)
    as ([Hw _] & _); try done.
  - apply docker_names_unique.
  - apply Forall_forall. intros e _. apply may_join_any.
Qed.

(** C1: on the reference runtime at most one live sandbox is named after a
    project, at every point of every run. When two [start] commands for the
    same project are handled one after the other, the second one first
    awaits the kill and the removal of the sandbox of that name, so that no
    sandbox of that name is left when [execCode] begins, and only then
    requests the creation of the new one. *)
Theorem one_sandbox_per_project :
  forall (H : Helpers) (env : Env) (σ : @St Docker.World),
    NoDup (Docker.names (world σ)) ->
    (forall (evs : list Ev) (p : string),
       length (Docker.live p (world (run H env evs σ))) <= 1)
    /\
    (forall (s1 s2 : nat) (d1 d2 : Data),
       projectId d1 = projectId d2 ->
       let σ1 := step H env σ (Command s1 Start d1) in
       valid_start H d2 = true ->
       fetch_ok d2 (world σ1) = true ->
       let p := str (projectId d2) in
       let σm := at_execCode env s2 d2 σ1 in
       exists res σ2 subs created rest,
         onStart H env s2 d2 σ1 = execCode H env p (language d2) (str (schoolId d2)) σm /\
         since σ1 σm = [SocketEmit s2 e_ack;
                        CloneCode p (str (schoolId d2)) true;
                        Kill (getContainer p) (stop_signal env)
                          (kill_ok env p (fetched d2 (world σ1)));
                        Remove (getContainer p) (remove_ok env p (fetched d2 (world σ1)));
                        LeaveAll s2;
                        Join s2 p] /\
         Docker.live p (world σm) = [] /\
         execCode H env p (language d2) (str (schoolId d2)) σm = (res, σ2) /\
         since σm σ2 = RoomEmit p e_starting subs
                       :: CreateContainer (container_config H env p (language d2)) created
                       :: rest /\
         length (Docker.live p (world σ2)) <= 1).
Proof.
  intros H env σ Hnd. split.
  - intros evs p. by apply live_at_most_one, names_stay_unique.
  - intros s1 s2 d1 d2 Hsame σ1 Hv Hf p σm.
    assert (Hstart : onStart H env s2 d2 σ1
                     = execCode H env p (language d2) (str (schoolId d2)) σm)
      by by apply onStart_accepted.
    assert (Hlen : length (Docker.live p
                     (world (execCode H env p (language d2) (str (schoolId d2)) σm).2)) <= 1).
    { rewrite <- Hstart. apply live_at_most_one.
      apply (names_stay_unique H env [Command s1 Start d1; Command s2 Start d2] σ Hnd). }
    destruct ((rt_createContainer (container_config H env p (language d2)) (world σm)).1)
      as [id|] eqn:Hc.
    + pose proof (execCode_created H env p (language d2) (str (schoolId d2)) σm id Hc) as He.
      cbv zeta in He. rewrite He in Hlen.
      eexists _, _, _, _, _. split; [exact Hstart|].
      split; [by unfold σm, at_execCode; rewrite since_mkSt|].
      split; [apply stopped_live|].
      split; [exact He|]. rewrite since_mkSt. split; [reflexivity|exact Hlen].
    + pose proof (execCode_failed H env p (language d2) (str (schoolId d2)) σm Hc) as He.
      rewrite He in Hlen.
      eexists _, _, _, _, _. split; [exact Hstart|].
      split; [by unfold σm, at_execCode; rewrite since_mkSt|].
      split; [apply stopped_live|].
      split; [exact He|]. rewrite since_mkSt. split; [reflexivity|exact Hlen].
Qed.

Lemma one_sandbox_per_project_witness :
  let σ := boot (host [] ["palcode/python"]) in
  let σ1 := step demo_helpers no_env σ (Command 7 Start start_abc) in
  let p := str (projectId start_abc) in
  let σm := at_execCode no_env 8 start_abc σ1 in
  NoDup (Docker.names (world σ)) /\
  map Docker.sb_id (Docker.live "abc" (world σ1)) = [10] /\
  projectId start_abc = projectId start_abc /\
  valid_start demo_helpers start_abc = true /\
  fetch_ok start_abc (world σ1) = true /\
  (forall (evs : list Ev) (q : string),
     length (Docker.live q (world (run demo_helpers no_env evs σ))) <= 1) /\
  exists res σ2 subs created rest,
    onStart demo_helpers no_env 8 start_abc σ1
      = execCode demo_helpers no_env p (language start_abc) (str (schoolId start_abc)) σm /\
    since σ1 σm = [SocketEmit 8 e_ack;
                   CloneCode p (str (schoolId start_abc)) true;
                   Kill (getContainer p) (stop_signal no_env)
                     (kill_ok no_env p (fetched start_abc (world σ1)));
                   Remove (getContainer p) (remove_ok no_env p (fetched start_abc (world σ1)));
                   LeaveAll 8;
                   Join 8 p] /\
    Docker.live p (world σm) = [] /\
    execCode demo_helpers no_env p (language start_abc) (str (schoolId start_abc)) σm
      = (res, σ2) /\
    since σm σ2 = RoomEmit p e_starting subs
                  :: CreateContainer (container_config demo_helpers no_env p
                                        (language start_abc)) created
                  :: rest /\
    length (Docker.live p (world σ2)) <= 1.
Proof.
  intros σ σ1 p σm.
  assert (Hnd : NoDup (Docker.names (world σ))) by apply NoDup_nil_2.
  split; [exact Hnd|]. split; [reflexivity|]. split; [reflexivity|].
  split; [reflexivity|]. split; [reflexivity|].
  split.
  - exact (proj1 (one_sandbox_per_project demo_helpers no_env σ Hnd)).
  - apply (proj2 (one_sandbox_per_project demo_helpers no_env σ Hnd) 7 8 start_abc
             start_abc); reflexivity.
Defined.

(** * Further properties of run.js *)

(** ** The remaining handlers, and what one event changes *)

Section Steps.
Context {W : Type} `{RT : Runtime W}.
Variable H : Helpers.
Variable env : Env.
Implicit Types (σ : @St W) (p : string) (data : Data).

Lemma onData_eq p chunk σ :
  onData H p chunk σ =
  (Done tt,
   mkSt (world σ) (rooms σ) (relays σ) (next_stream σ) (S (next_uuid σ))
     (log σ ++ [RoomEmit p (e_chunk chunk (uuid H (next_uuid σ)))
                  (subscribers (rooms σ) p)])).
Proof. reflexivity. Qed.

Lemma containerStdin_eq p input σ :
  let c := getContainer p in
  let ok := (rt_attach_stdin c (world σ)).1 in
  let w1 := (rt_attach_stdin c (world σ)).2 in
  containerStdin p input σ =
  (Done tt,
   mkSt (if ok then rt_write c input w1 else w1) (rooms σ) (relays σ) (next_stream σ)
     (next_uuid σ)
     (log σ ++ AttachStdin c ok
            :: (if ok then [StreamWrite c input; StreamEndInput c] else [])
            ++ [ContainerWait c])).
Proof.
  intros c ok w1. subst c ok w1. unfold containerStdin.
  unfold bind, callback, ret, tell, logged, set_world. simpl.
  destruct (rt_attach_stdin _ _) as [[] w1]; simpl; rewrite <- ?app_assoc; reflexivity.
Qed.

Lemma onStdin_valid socket data σ :
  falsy (projectId data) || falsy (stdin data) = false ->
  onStdin socket data σ = containerStdin (str (projectId data)) (str (stdin data)) σ.
Proof. intros Hv. unfold onStdin. by rewrite Hv. Qed.

(** [execCode] draws no identifier, broadcasts no chunk and leaves the rooms. *)
Lemma execCode_quiet p lang sch σ :
  let σ' := (execCode H env p lang sch σ).2 in
  next_uuid σ' = next_uuid σ /\ rooms σ' = rooms σ /\
  exists t, log σ' = log σ ++ t /\ chunk_ids t = [].
Proof.
  destruct ((rt_createContainer (container_config H env p lang) (world σ)).1)
    as [id|] eqn:Hc.
  - pose proof (execCode_created H env p lang sch σ id Hc) as He.
    cbv zeta in He. rewrite He. simpl. eauto.
  - rewrite (execCode_failed H env p lang sch σ Hc). simpl. eauto.
Qed.

(** Every event but an output chunk leaves the identifier counter alone and
    broadcasts no chunk; the rooms change only by the replacement of one
    socket's membership. An output chunk of an attached stream draws one
    identifier and broadcasts one chunk. *)
Lemma step_frame e σ :
  let σ' := step H env σ e in
  (rooms σ' = rooms σ \/ exists s p, rooms σ' = <[s := {[p]}]> (rooms σ)) /\
  exists t, log σ' = log σ ++ t /\
    ((next_uuid σ' = next_uuid σ /\ chunk_ids t = []) \/
     (next_uuid σ' = S (next_uuid σ) /\ chunk_ids t = [uuid H (next_uuid σ)])).
Proof.
  unfold step. destruct e as [s [] data|k chunk|k]; simpl.
  - destruct (valid_start H data) eqn:Hv.
    + destruct (fetch_ok data (world σ)) eqn:Hf.
      * rewrite onStart_accepted by done.
        destruct (execCode_quiet (str (projectId data)) (language data)
                    (str (schoolId data)) (at_execCode env s data σ))
          as (Hu & Hr & t & Hl & Ht).
        split; [right; eexists _, _; by rewrite Hr|].
        eexists. split; [rewrite Hl; simpl; rewrite <- app_assoc; reflexivity|].
        left. split; [by rewrite Hu|]. unfold chunk_ids in *.
        rewrite omap_app, Ht. reflexivity.
      * rewrite onStart_not_found by done. simpl.
        split; [by left|]. eexists. split; [reflexivity|]. by left.
    + rewrite onStart_malformed by done. simpl.
      split; [by left|]. eexists. split; [reflexivity|]. by left.
  - destruct (falsy (projectId data) || falsy (stdin data)) eqn:Hv.
    + rewrite onStdin_malformed by done. simpl.
      split; [by left|]. eexists. split; [reflexivity|]. by left.
    + rewrite onStdin_valid by done.
      pose proof (containerStdin_eq (str (projectId data)) (str (stdin data)) σ) as He.
      cbv zeta in He. rewrite He. simpl.
      split; [by left|]. eexists. split; [reflexivity|]. left. split; [done|].
      by destruct (rt_attach_stdin _ _).1.
  - destruct (falsy (projectId data)) eqn:Hv.
    + rewrite onStop_malformed by done. simpl.
      split; [by left|]. eexists. split; [reflexivity|]. by left.
    + rewrite onStop_eq by done. simpl.
      split; [by left|]. eexists. split; [reflexivity|]. by left.
  - destruct (relays σ !! k) as [r|]; simpl.
    + split; [by left|]. eexists. split; [reflexivity|]. by right.
    + split; [by left|]. exists []. split; [by rewrite app_nil_r|]. by left.
  - destruct (relays σ !! k) as [r|]; simpl.
    + rewrite onEnd_eq. simpl.
      split; [by left|]. eexists. split; [reflexivity|]. by left.
    + split; [by left|]. exists []. split; [by rewrite app_nil_r|]. by left.
Qed.

Lemma run_cons e evs σ : run H env (e :: evs) σ = run H env evs (step H env σ e).
Proof. reflexivity. Qed.

(** The log only grows, and the chunks broadcast during a run carry the
    identifiers drawn during it, in the order they were drawn. *)
Lemma run_chunk_ids evs σ :
  exists t m,
    log (run H env evs σ) = log σ ++ t /\
    next_uuid (run H env evs σ) = (next_uuid σ + m)%nat /\
    chunk_ids t = map (uuid H) (seq (next_uuid σ) m).
Proof.
  revert σ. induction evs as [|e evs IH]; intros σ.
  - exists [], 0%nat. simpl. by rewrite app_nil_r, Nat.add_0_r.
  - rewrite run_cons.
    destruct (step_frame e σ) as (_ & t1 & Hl1 & Hu1).
    destruct (IH (step H env σ e)) as (t2 & m & Hl2 & Hu2 & Hc2).
    destruct Hu1 as [[Hu1 Hc1]|[Hu1 Hc1]].
    + exists (t1 ++ t2), m. rewrite Hl2, Hl1, Hu2, Hu1, app_assoc.
      split; [done|]. split; [done|].
      unfold chunk_ids in *. by rewrite omap_app, Hc1, Hc2, Hu1.
    + exists (t1 ++ t2), (S m). rewrite Hl2, Hl1, Hu2, Hu1, app_assoc.
      split; [done|]. split; [lia|].
      unfold chunk_ids in *. by rewrite omap_app, Hc1, Hc2, Hu1.
Qed.

End Steps.

Lemma numbering_uuid_inj i j :
  uuid numbering_helpers i = uuid numbering_helpers j -> i = j.
Proof.
  simpl. intros Hs. apply DecimalNat.Unsigned.to_uint_inj.
  apply (f_equal NilEmpty.uint_of_string) in Hs.
  rewrite !NilEmpty.usu in Hs. congruence.
Qed.

(** X1: the output chunks broadcast during any run carry, in order, exactly
    the identifiers drawn from [uuid()] during that run, one fresh draw per
    chunk and none for any other event; hence, [uuid()] never repeating
    itself, no two chunk events share a [stdoutID]. *)
Theorem output_identifiers_are_unique :
  forall (W : Type) (RT : Runtime W) (H : Helpers) (env : Env) (evs : list Ev)
         (σ : @St W),
    (forall i j, uuid H i = uuid H j -> i = j) ->
    let σ' := run H env evs σ in
    chunk_ids (since σ σ')
      = map (uuid H) (seq (next_uuid σ) (next_uuid σ' - next_uuid σ)) /\
    NoDup (chunk_ids (since σ σ')).
Proof.
  intros W RT H env evs σ Hinj σ'. subst σ'.
  destruct (run_chunk_ids H env evs σ) as (t & m & Hl & Hu & Hc).
  rewrite (since_app _ _ _ Hl), Hu, Hc.
  replace (next_uuid σ + m - next_uuid σ) with m by lia.
  split; [done|].
  apply NoDup_fmap_2_strong; [|apply NoDup_seq].
  intros i j _ _. apply Hinj.
Qed.

Lemma output_identifiers_are_unique_witness :
  let σ := boot (host [] ["palcode/python"]) in
  let evs := [Command 7 Start start_abc; StreamData 0 "a"; Command 8 Stop stop_abc;
              StreamData 0 "b"; StreamEnd 0] in
  let σ' := run numbering_helpers no_env evs σ in
  (forall i j, uuid numbering_helpers i = uuid numbering_helpers j -> i = j) /\
  chunk_ids (since σ σ')
    = map (uuid numbering_helpers) (seq (next_uuid σ) (next_uuid σ' - next_uuid σ)) /\
  NoDup (chunk_ids (since σ σ')).
Proof.
  split; [exact numbering_uuid_inj|].
  apply (output_identifiers_are_unique Docker.World docker_runtime numbering_helpers no_env).
  exact numbering_uuid_inj.
Defined.

Lemma relay_chunks_log {W : Type} `{RT : Runtime W} (H : Helpers) (env : Env)
    (k : nat) (r : Relay) (chunks : list string) (σ : @St W) :
  relays σ !! k = Some r ->
  run H env (map (StreamData k) chunks) σ =
  mkSt (world σ) (rooms σ) (relays σ) (next_stream σ) (next_uuid σ + length chunks)
    (log σ ++ imap (fun i chunk =>
                      RoomEmit (r_project r) (e_chunk chunk (uuid H (next_uuid σ + i)))
                        (subscribers (rooms σ) (r_project r))) chunks).
Proof.
  revert σ. induction chunks as [|c chunks IH]; intros σ Hr.
  - simpl. rewrite app_nil_r, Nat.add_0_r. by destruct σ.
  - cbn [map]. rewrite run_cons. unfold step at 1. simpl. rewrite Hr. simpl.
    rewrite IH by exact Hr. simpl. f_equal; [lia|].
    rewrite <- app_assoc. simpl. do 2 f_equal.
    + by rewrite Nat.add_0_r.
    + apply imap_ext. intros i x _. simpl. do 3 f_equal. lia.
Qed.

(** X2: the relay forwards the chunks of a stream in the order the stream
    produced them, one broadcast per chunk, none lost and none repeated: for
    chunks of ASCII text, chunk number i goes unchanged to the subscribers of
    the project with the i-th fresh identifier and [running: true]; nothing
    else is logged and neither the runtime nor the rooms nor the relays
    change. *)
Theorem relay_preserves_order :
  forall (W : Type) (RT : Runtime W) (H : Helpers) (env : Env) (k : nat) (r : Relay)
         (chunks : list string) (σ : @St W),
    relays σ !! k = Some r ->
    forallb ascii_text chunks = true ->
    let p := r_project r in
    let σ' := run H env (map (StreamData k) chunks) σ in
    since σ σ' = imap (fun i chunk =>
                         RoomEmit p (e_chunk chunk (uuid H (next_uuid σ + i)))
                           (subscribers (rooms σ) p)) chunks /\
    world σ' = world σ /\ rooms σ' = rooms σ /\ relays σ' = relays σ.
Proof.
  intros W RT H env k r chunks σ Hr _ p σ'. subst σ' p.
  rewrite (relay_chunks_log H env k r chunks σ Hr). by rewrite since_mkSt.
Qed.

Lemma relay_preserves_order_witness :
  let σ := run demo_helpers no_env [Command 7 Start start_abc]
             (boot (host [] ["palcode/python"])) in
  let r := {| r_project := "abc"; r_school := "s1" |} in
  let σ' := run demo_helpers no_env (map (StreamData 0) ["one"; "two"; "three"]) σ in
  relays σ !! 0 = Some r /\
  forallb ascii_text ["one"; "two"; "three"] = true /\
  since σ σ' = imap (fun i chunk =>
                       RoomEmit (r_project r)
                         (e_chunk chunk (uuid demo_helpers (next_uuid σ + i)))
                         (subscribers (rooms σ) (r_project r)))
                 ["one"; "two"; "three"] /\
  world σ' = world σ /\ rooms σ' = rooms σ /\ relays σ' = relays σ.
Proof.
  split; [reflexivity|]. split; [reflexivity|].
  apply (relay_preserves_order Docker.World docker_runtime demo_helpers no_env 0
           {| r_project := "abc"; r_school := "s1" |} ["one"; "two"; "three"]);
    reflexivity.
Defined.

Lemma exclusive_replace (rs : gmap nat (gset string)) (s : nat) (p : string) :
  exclusive rs -> exclusive (<[s := {[p]}]> rs).
Proof.
  intros Hex s' a b. destruct (decide (s = s')) as [->|Hne].
  - rewrite lookup_total_insert_eq, !elem_of_singleton. congruence.
  - rewrite lookup_total_insert_ne by done. apply Hex.
Qed.

Lemma exclusive_empty : exclusive ∅.
Proof. intros s p q Hp. rewrite lookup_total_empty in Hp. by apply elem_of_empty in Hp. Qed.

(** X3: subscriber membership is exclusive. If every socket is in at most one
    room, it stays so whatever commands and stream events are handled: the
    only membership change in run.js is [leaveAll] followed by [join] of one
    room. A broadcast to a project therefore reaches only sockets whose single
    room is that project. *)
Theorem membership_stays_exclusive :
  forall (W : Type) (RT : Runtime W) (H : Helpers) (env : Env) (evs : list Ev)
         (σ : @St W),
    exclusive (rooms σ) ->
    exclusive (rooms (run H env evs σ)) /\
    forall (s : nat) (p : string),
      s ∈ subscribers (rooms (run H env evs σ)) p ->
      rooms (run H env evs σ) !!! s = {[p]}.
Proof.
  intros W RT H env evs σ Hex.
  assert (Hrun : exclusive (rooms (run H env evs σ))).
  { revert σ Hex. induction evs as [|e evs IH]; intros σ Hex; [exact Hex|].
    rewrite run_cons. apply IH.
    destruct (step_frame H env e σ) as ([Hr|(s & p & Hr)] & _); rewrite Hr.
    - exact Hex.
    - by apply exclusive_replace. }
  split; [exact Hrun|].
  intros s p (set & Hs & Hin)%elem_of_subscribers.
  rewrite lookup_total_alt, Hs. simpl.
  apply set_eq. intros q. rewrite elem_of_singleton. split.
  - intros Hq. apply (Hrun s); rewrite lookup_total_alt, Hs; done.
  - by intros ->.
Qed.

Lemma membership_stays_exclusive_witness :
  let σ := boot (host [] ["palcode/python"]) in
  let evs := [Command 7 Start start_abc; Command 8 Start start_abc;
              Command 7 Start (command (Some "xyz") (Some "python") (Some "s1") None)] in
  exclusive (rooms σ) /\
  exclusive (rooms (run demo_helpers no_env evs σ)) /\
  forall (s : nat) (p : string),
    s ∈ subscribers (rooms (run demo_helpers no_env evs σ)) p ->
    rooms (run demo_helpers no_env evs σ) !!! s = {[p]}.
Proof.
  split; [exact exclusive_empty|].
  apply (membership_stays_exclusive Docker.World docker_runtime demo_helpers no_env).
  exact exclusive_empty.
Defined.

(** ** More on the reference runtime *)

Section DockerSteps.
Import Docker.
Implicit Types (w : World) (c : Sandbox) (cs : list Sandbox) (p q : string).

Lemma live_update_other p q f w :
  q <> p -> (forall c, sb_name (f c) = sb_name c) ->
  live q (update (ByName p) f w) = live q w.
Proof.
  intros Hne Hf. unfold live, update. simpl.
  induction (containers w) as [|c cs IH]; simpl; [done|].
  destruct (String.eqb p (sb_name c)) eqn:Ep.
  - apply String.eqb_eq in Ep. rewrite Hf.
    assert (String.eqb q (sb_name c) = false) as -> by (apply String.eqb_neq; congruence).
    exact IH.
  - by rewrite IH.
Qed.

Lemma kill_live_other p q sig w : q <> p -> live q (kill (ByName p) sig w).2 = live q w.
Proof.
  intros Hne. unfold kill. destruct (find _ _) as [c|]; [|done].
  destruct (sb_running c); [|done]. simpl.
  destruct (fatal sig); [|done]. by apply live_update_other.
Qed.

Lemma remove_live_other p q w : q <> p -> live q (remove (ByName p) w).2 = live q w.
Proof.
  intros Hne. unfold remove. destruct (find _ _) as [c|]; [|done].
  unfold live. simpl. induction (containers w) as [|c' cs IH]; simpl; [done|].
  destruct (String.eqb p (sb_name c')) eqn:Ep; simpl.
  - apply String.eqb_eq in Ep.
    assert (String.eqb q (sb_name c') = false) as -> by (apply String.eqb_neq; congruence).
    exact IH.
  - by rewrite IH.
Qed.

(** A teardown of [p] leaves the sandboxes of every other name as they are. *)
Lemma stopped_live_other env p q w : q <> p -> live q (stopped env p w) = live q w.
Proof.
  intros Hne. unfold stopped, killed. simpl.
  by rewrite remove_live_other, kill_live_other.
Qed.

Lemma update_fresh r f w :
  (forall c, sb_id (f c) = sb_id c) -> ids_fresh w -> ids_fresh (update r f w).
Proof.
  intros Hf. unfold ids_fresh, update. simpl.
  induction (containers w) as [|c cs IH]; simpl; [done|].
  rewrite !Forall_cons. intros [Hc Hcs]. split; [|by apply IH].
  by destruct (resolves r c); rewrite ?Hf.
Qed.

Lemma kill_static r sig w :
  images (kill r sig w).2 = images w /\ next_id (kill r sig w).2 = next_id w /\
  (ids_fresh w -> ids_fresh (kill r sig w).2).
Proof.
  unfold kill. destruct (find _ _) as [c|]; [|done].
  destruct (sb_running c); [|done]. simpl. destruct (fatal sig); [|done].
  repeat split. by apply update_fresh.
Qed.

Lemma remove_static r w :
  images (remove r w).2 = images w /\ next_id (remove r w).2 = next_id w /\
  (ids_fresh w -> ids_fresh (remove r w).2).
Proof.
  unfold remove. destruct (find _ _) as [c|]; [|done]. simpl.
  repeat split. unfold ids_fresh. simpl.
  induction (containers w) as [|c' cs IH]; simpl; [done|].
  rewrite Forall_cons. intros [Hc Hcs].
  destruct (resolves r c'); simpl; [by apply IH|].
  apply Forall_cons. split; [done|by apply IH].
Qed.

Lemma stopped_static env p w :
  images (stopped env p w) = images w /\ next_id (stopped env p w) = next_id w /\
  (ids_fresh w -> ids_fresh (stopped env p w)).
Proof.
  unfold stopped, killed. simpl.
  destruct (kill_static (getContainer p) (stop_signal env) w) as (Hi & Hn & Hf).
  destruct (remove_static (getContainer p) (kill (getContainer p) (stop_signal env) w).2)
    as (Hi' & Hn' & Hf').
  rewrite Hi', Hn', Hi, Hn. auto.
Qed.

Lemma name_free_after_stop env p w : name_in_use p (stopped env p w) = false.
Proof.
  apply not_true_is_false. rewrite name_in_use_spec.
  apply live_nil, stopped_live.
Qed.

End DockerSteps.

Section DockerStart.
Import Docker.
Variable H : Helpers.
Variable env : Env.
Implicit Types (w : World) (c : Sandbox) (cs : list Sandbox) (p q : string)
  (σ : @St World).

Lemma find_fresh cs c id :
  Forall (fun c' => sb_id c' < id) cs -> sb_id c = id ->
  find (resolves (ById id)) (cs ++ [c]) = Some c.
Proof.
  intros Hcs Hc. induction Hcs as [|c' cs Hc' _ IH]; simpl.
  - by rewrite Hc, Nat.eqb_refl.
  - assert (Nat.eqb id (sb_id c') = false) as -> by (apply Nat.eqb_neq; lia).
    exact IH.
Qed.

Lemma map_fresh cs c id (f : Sandbox -> Sandbox) :
  Forall (fun c' => sb_id c' < id) cs -> sb_id c = id ->
  map (fun c' => if resolves (ById id) c' then f c' else c') (cs ++ [c]) = cs ++ [f c].
Proof.
  intros Hcs Hc. induction Hcs as [|c' cs Hc' _ IH]; cbn [map app].
  - unfold resolves. by rewrite Hc, Nat.eqb_refl.
  - rewrite IH. replace (resolves (ById id) c') with false; [done|].
    symmetry. apply Nat.eqb_neq. lia.
Qed.

(** The host after a sandbox has been created with options [o] and started. *)
Lemma created_and_started o w :
  ids_fresh w ->
  existsb (String.eqb (Image o)) (images w) = true ->
  name_in_use (name o) w = false ->
  let w1 := (createContainer o w).2 in
  (createContainer o w).1 = Some (next_id w) /\
  start (ById (next_id w)) w1 =
    (true, {| containers := containers w ++ [new_sandbox o w true];
              images := images w; next_id := S (next_id w); remote := remote w |}) /\
  attach (ById (next_id w))
    {| containers := containers w ++ [new_sandbox o w true];
       images := images w; next_id := S (next_id w); remote := remote w |}
  = (true, {| containers := containers w ++ [new_sandbox o w true];
              images := images w; next_id := S (next_id w); remote := remote w |}).
Proof.
  intros Hf Hi Hn w1. subst w1. unfold createContainer. rewrite Hi, Hn.
  cbn [andb negb fst snd].
  split; [done|]. split.
  - unfold start. cbn [containers].
    erewrite find_fresh; [|exact Hf|reflexivity]. cbn [sb_running].
    unfold update, set_containers. cbn [containers images next_id remote].
    erewrite map_fresh; [|exact Hf|reflexivity]. reflexivity.
  - unfold attach. cbn [containers].
    erewrite find_fresh; [|exact Hf|reflexivity]. reflexivity.
Qed.

Lemma docker_execCode_created p lang sch σ :
  ids_fresh (world σ) ->
  existsb (String.eqb (getTag H lang)) (images (world σ)) = true ->
  name_in_use p (world σ) = false ->
  let o := container_config H env p lang in
  let id := next_id (world σ) in
  execCode H env p lang sch σ =
  (Done tt,
   mkSt {| containers := containers (world σ) ++ [new_sandbox o (world σ) true];
           images := images (world σ); next_id := S id; remote := remote (world σ) |}
     (rooms σ) (<[next_stream σ := {| r_project := p; r_school := sch |}]> (relays σ))
     (S (next_stream σ)) (next_uuid σ)
     (log σ ++ [RoomEmit p e_starting (subscribers (rooms σ) p);
                CreateContainer o (Some id);
                RoomEmit p e_created (subscribers (rooms σ) p);
                ContainerStart (ById id) true;
                Attach (ById id) true])).
Proof.
  intros Hf Hi Hn o id. subst id.
  destruct (created_and_started o (world σ) Hf Hi Hn) as (Hc & Hs & Ha).
  cbv zeta in Hs.
  pose proof (execCode_created H env p lang sch σ (next_id (world σ)) Hc) as He.
  cbv zeta in He. rewrite He. clear He.
  change (@rt_start _ docker_runtime) with start.
  change (@rt_attach _ docker_runtime) with attach.
  change (@rt_createContainer _ docker_runtime) with createContainer.
  fold o. rewrite Hs. cbn [fst snd]. rewrite Ha. reflexivity.
Qed.

End DockerStart.

Lemma falsy_false (f : option string) : falsy f = false -> f = Some (str f).
Proof. destruct f; [done|discriminate]. Qed.

Lemma fetched_docker data (w : Docker.World) : fetched data w = w.
Proof. reflexivity. Qed.

Lemma live_with_new q o (w w0 : Docker.World) b imgs nid rem :
  Docker.live q {| Docker.containers := Docker.containers w0 ++ [new_sandbox o w b];
                   Docker.images := imgs; Docker.next_id := nid; Docker.remote := rem |}
  = Docker.live q w0 ++ (if String.eqb q (name o) then [new_sandbox o w b] else []).
Proof. unfold Docker.live. simpl. by rewrite List.filter_app. Qed.

(** What a [start] does on the reference runtime once it has passed
    validation and the code fetch and the image is on the host. *)
Lemma docker_start_created (H : Helpers) (env : Env) (s : nat) (data : Data)
    (σ : @St Docker.World) :
  valid_start H data = true ->
  fetch_ok data (world σ) = true ->
  image_available H data (world σ) = true ->
  ids_fresh (world σ) ->
  let p := str (projectId data) in
  let o := container_config H env p (language data) in
  let w0 := stopped env p (world σ) in
  let subs := subscribers (<[s := {[p]}]> (rooms σ)) p in
  onStart H env s data σ =
  (Done tt,
   mkSt {| Docker.containers := Docker.containers w0 ++ [new_sandbox o (world σ) true];
           Docker.images := Docker.images (world σ);
           Docker.next_id := S (Docker.next_id (world σ));
           Docker.remote := Docker.remote w0 |}
     (<[s := {[p]}]> (rooms σ))
     (<[next_stream σ := {| r_project := p; r_school := str (schoolId data) |}]> (relays σ))
     (S (next_stream σ)) (next_uuid σ)
     (log σ ++ [SocketEmit s e_ack;
                CloneCode p (str (schoolId data)) true;
                Kill (getContainer p) (stop_signal env) (kill_ok env p (world σ));
                Remove (getContainer p) (remove_ok env p (world σ));
                LeaveAll s;
                Join s p;
                RoomEmit p e_starting subs;
                CreateContainer o (Some (Docker.next_id (world σ)));
                RoomEmit p e_created subs;
                ContainerStart (ById (Docker.next_id (world σ))) true;
                Attach (ById (Docker.next_id (world σ))) true])).
Proof.
  intros Hv Hf Hi Hfresh p o w0 subs. subst p o w0 subs.
  rewrite onStart_accepted by done.
  destruct (stopped_static env (str (projectId data)) (world σ)) as (Himg & Hid & Hfr).
  rewrite docker_execCode_created.
  - unfold at_execCode, before_create, teardown_acts.
    cbn [world rooms relays next_stream next_uuid log].
    rewrite !fetched_docker, Himg, Hid. unfold new_sandbox. rewrite Hid.
    rewrite <- !app_assoc. reflexivity.
  - simpl. unfold before_create. rewrite fetched_docker. by apply Hfr.
  - simpl. unfold before_create. rewrite fetched_docker. by rewrite Himg.
  - simpl. unfold before_create. rewrite fetched_docker. apply name_free_after_stop.
Qed.

(** X4: a [start] handled alone obtains its sandbox. On the reference runtime,
    when the chain of a [start] (the listener with its awaits and the
    callbacks of [createContainer] and [attach]) runs with no other listener
    in between, the [start] passes validation and the code fetch, and the
    image of the language is on the host, then the creation is not refused
    for a name in use, because the teardown of that name has settled before
    it. The sandbox is the only one of that name, it has a fresh identifier
    and the options of [container_config], it has been started, a relay for
    [projectId] and [schoolId] is attached to its output, and the sender has
    received the acknowledgement, ["Starting..."] and ["Container created!
    Mounting..."], in this order. Two [start]s of one project whose chains
    overlap are outside this statement. *)
Theorem start_creates_running_sandbox :
  forall (H : Helpers) (env : Env) (s : nat) (data : Data) (σ : @St Docker.World),
    valid_start H data = true ->
    fetch_ok data (world σ) = true ->
    image_available H data (world σ) = true ->
    ids_fresh (world σ) ->
    let p := str (projectId data) in
    let o := container_config H env p (language data) in
    exists σ',
      onStart H env s data σ = (Done tt, σ') /\
      Docker.live p (world σ') = [new_sandbox o (world σ) true] /\
      relays σ' = <[next_stream σ := {| r_project := p; r_school := str (schoolId data) |}]>
                    (relays σ) /\
      received s (since σ σ') = [e_ack; e_starting; e_created] /\
      ids_fresh (world σ').
Proof.
  intros H env s data σ Hv Hf Hi Hfresh p o. subst p o. eexists.
  split; [by apply docker_start_created|].
  rewrite since_mkSt. cbn [world relays]. split; [|split; [done|split]].
  - rewrite live_with_new, stopped_live. simpl. by rewrite String.eqb_refl.
  - simpl. rewrite Nat.eqb_refl.
    rewrite (bool_decide_eq_true_2 _
               (subscribers_joined (rooms σ) (str (projectId data)) s)).
    reflexivity.
  - destruct (stopped_static env (str (projectId data)) (world σ)) as (_ & Hid & Hfr).
    unfold ids_fresh in *. cbn [Docker.containers Docker.next_id].
    apply Forall_app. split.
    + specialize (Hfr Hfresh). rewrite Hid in Hfr.
      eapply Forall_impl; [exact Hfr|]. simpl. intros c Hc. lia.
    + apply Forall_singleton. simpl. lia.
Qed.

Lemma start_creates_running_sandbox_witness :
  let σ := boot (host [sandbox_abc] ["palcode/python"]) in
  let p := str (projectId start_abc) in
  let o := container_config demo_helpers no_env p (language start_abc) in
  valid_start demo_helpers start_abc = true /\
  fetch_ok start_abc (world σ) = true /\
  image_available demo_helpers start_abc (world σ) = true /\
  ids_fresh (world σ) /\
  exists σ',
    onStart demo_helpers no_env 7 start_abc σ = (Done tt, σ') /\
    Docker.live p (world σ') = [new_sandbox o (world σ) true] /\
    relays σ' = <[next_stream σ := {| r_project := p;
                                      r_school := str (schoolId start_abc) |}]>
                  (relays σ) /\
    received 7 (since σ σ') = [e_ack; e_starting; e_created] /\
    ids_fresh (world σ').
Proof.
  intros σ p o.
  assert (Hfresh : ids_fresh (world σ)).
  { apply Forall_singleton. vm_compute. lia. }
  split; [reflexivity|]. split; [reflexivity|]. split; [reflexivity|].
  split; [exact Hfresh|].
  apply (start_creates_running_sandbox demo_helpers no_env 7 start_abc σ);
    [reflexivity|reflexivity|reflexivity|exact Hfresh].
Defined.

Lemma createContainer_no_image o (w : Docker.World) :
  existsb (String.eqb (Image o)) (Docker.images w) = false ->
  Docker.createContainer o w = (None, w).
Proof. unfold Docker.createContainer. by intros ->. Qed.

(** What a [start] does on the reference runtime when the image is missing. *)
Lemma docker_start_refused (H : Helpers) (env : Env) (s : nat) (data : Data)
    (σ : @St Docker.World) :
  valid_start H data = true ->
  fetch_ok data (world σ) = true ->
  image_available H data (world σ) = false ->
  world (onStart H env s data σ).2 = stopped env (str (projectId data)) (world σ) /\
  relays (onStart H env s data σ).2 = relays σ.
Proof.
  intros Hv Hf Hi.
  destruct (stopped_static env (str (projectId data)) (world σ)) as (Himg & _ & _).
  assert (Hc : Docker.createContainer
                 (container_config H env (str (projectId data)) (language data))
                 (stopped env (str (projectId data)) (world σ))
               = (None, stopped env (str (projectId data)) (world σ))).
  { apply createContainer_no_image. simpl. by rewrite Himg. }
  rewrite onStart_create_failed; [| done | done |].
  - unfold after_create, before_create. rewrite fetched_docker. simpl.
    by rewrite Hc.
  - unfold create_result, before_create. rewrite fetched_docker. simpl.
    by rewrite Hc.
Qed.

Lemma names_project_false q s c data :
  names_project q (Command s c data) = false ->
  projectId data = Some (str (projectId data)) ->
  q <> str (projectId data).
Proof.
  simpl. intros Hn Hp. rewrite Hp in Hn. simpl in Hn.
  apply String.eqb_neq in Hn. congruence.
Qed.

Lemma fresh_with_new o (w w0 : Docker.World) b imgs rem :
  ids_fresh w0 -> Docker.next_id w0 = Docker.next_id w ->
  ids_fresh {| Docker.containers := Docker.containers w0 ++ [new_sandbox o w b];
               Docker.images := imgs; Docker.next_id := S (Docker.next_id w);
               Docker.remote := rem |}.
Proof.
  intros Hf Hid. unfold ids_fresh in *. simpl. rewrite Hid in Hf.
  apply Forall_app. split.
  - eapply Forall_impl; [exact Hf|]. simpl. intros c Hc. lia.
  - apply Forall_singleton. simpl. lia.
Qed.

Lemma relays_from_refl {W : Type} (q : string) (σ : @St W) : relays_from q σ σ.
Proof.
  intros k r Hr Hq. unfold ends_relay_of. rewrite Hr. by apply String.eqb_eq.
Qed.

(** One event that neither names project [q] nor ends a relay that [σ0] held
    for [q] leaves the sandboxes named [q] as they are, and attaches no relay
    for [q]. *)
Lemma step_isolated (H : Helpers) (env : Env) (q : string) (e : Ev)
    (σ0 σ : @St Docker.World) :
  ids_fresh (world σ) -> relays_from q σ0 σ -> foreign_to q σ0 e = true ->
  ids_fresh (world (step H env σ e)) /\ relays_from q σ0 (step H env σ e) /\
  Docker.live q (world (step H env σ e)) = Docker.live q (world σ).
Proof.
  intros Hfresh Hfrom He. unfold foreign_to in He.
  apply andb_true_iff in He as [Hn He].
  apply negb_true_iff in Hn. apply negb_true_iff in He. unfold step.
  destruct e as [s [] data|k chunk|k]; cbn [dispatch].
  - destruct (valid_start H data) eqn:Hv; [|by rewrite onStart_malformed].
    destruct (fetch_ok data (world σ)) eqn:Hf; [|by rewrite onStart_not_found].
    pose proof (names_project_false q s Start data Hn (valid_start_projectId H data Hv))
      as Hne.
    destruct (stopped_static env (str (projectId data)) (world σ)) as (_ & Hid & Hfr).
    destruct (image_available H data (world σ)) eqn:Hi.
    + pose proof (docker_start_created H env s data σ Hv Hf Hi Hfresh) as Hs.
      cbv zeta in Hs. rewrite Hs. cbn [snd world relays]. split; [|split].
      * apply fresh_with_new; auto.
      * intros k r. cbn [relays]. intros Hr Hq.
        destruct (decide (k = next_stream σ)) as [->|Hk].
        -- rewrite lookup_insert_eq in Hr. injection Hr as <-. simpl in Hq. congruence.
        -- rewrite lookup_insert_ne in Hr by done. by apply (Hfrom k r).
      * rewrite live_with_new, stopped_live_other by done. simpl.
        apply String.eqb_neq in Hne. rewrite Hne. apply app_nil_r.
    + destruct (docker_start_refused H env s data σ Hv Hf Hi) as (Hw & Hr).
      rewrite Hw. unfold relays_from. rewrite Hr.
      split; [auto|]. split; [exact Hfrom|]. by apply stopped_live_other.
  - destruct (falsy (projectId data) || falsy (stdin data)) eqn:Hv;
      [by rewrite onStdin_malformed|].
    apply orb_false_iff in Hv as [Hp Hi].
    pose proof (names_project_false q s Stdin data Hn (falsy_false _ Hp)) as Hne.
    rewrite onStdin_valid by (by rewrite Hp, Hi).
    pose proof (containerStdin_eq (str (projectId data)) (str (stdin data)) σ) as Hs.
    cbv zeta in Hs. rewrite Hs. cbn [snd world]. unfold relays_from. cbn [relays].
    simpl. destruct (bool_decide _); [|done].
    split; [by apply update_fresh|]. split; [done|].
    by apply live_update_other.
  - destruct (falsy (projectId data)) eqn:Hp; [by rewrite onStop_malformed|].
    pose proof (names_project_false q s Stop data Hn (falsy_false _ Hp)) as Hne.
    rewrite onStop_eq by done. cbn [snd world]. unfold relays_from. cbn [relays].
    destruct (stopped_static env (str (projectId data)) (world σ)) as (_ & _ & Hfr).
    split; [auto|]. split; [done|]. by apply stopped_live_other.
  - by destruct (relays σ !! k).
  - destruct (relays σ !! k) as [r|] eqn:Hr; [|done].
    rewrite onEnd_eq. cbn [snd world]. unfold relays_from. cbn [relays]. simpl.
    destruct (stopped_static env (r_project r) (world σ)) as (_ & _ & Hfr).
    split; [auto|]. split.
    + intros k' r' Hr' Hq. apply lookup_delete_Some in Hr' as [_ Hr'].
      by apply (Hfrom k' r').
    + apply stopped_live_other. intros ->.
      pose proof (Hfrom k r Hr eq_refl) as Hk. congruence.
Qed.

Lemma run_isolated (H : Helpers) (env : Env) (q : string) (σ0 : @St Docker.World)
    (evs : list Ev) :
  forall σ : @St Docker.World,
    ids_fresh (world σ) -> relays_from q σ0 σ ->
    forallb (foreign_to q σ0) evs = true ->
    Docker.live q (world (run H env evs σ)) = Docker.live q (world σ).
Proof.
  induction evs as [|e evs IH]; intros σ Hfresh Hfrom Hevs; [done|].
  simpl in Hevs. apply andb_true_iff in Hevs as [He Hevs].
  destruct (step_isolated H env q e σ0 σ Hfresh Hfrom He) as (Hfresh' & Hfrom' & Hl).
  rewrite run_cons, IH by done. exact Hl.
Qed.

(** X5: sessions do not disturb each other's sandboxes. On the reference
    runtime, events handled one after the other, none of which is a command
    that names project q or the end of the output of a sandbox of q, leave
    the sandboxes named q exactly as they are (same options, same state, same
    input), whether or not a session of q is running, and whatever is
    started, fed, stopped or ended for other projects; output of q's own
    sandbox may be relayed in between. *)
Theorem other_projects_are_untouched :
  forall (H : Helpers) (env : Env) (q : string) (evs : list Ev) (σ : @St Docker.World),
    ids_fresh (world σ) ->
    forallb (foreign_to q σ) evs = true ->
    Docker.live q (world (run H env evs σ)) = Docker.live q (world σ).
Proof.
  intros H env q evs σ Hfresh Hevs.
  apply (run_isolated H env q σ evs σ Hfresh (relays_from_refl q σ) Hevs).
Qed.

Lemma other_projects_are_untouched_witness :
  let σ := run demo_helpers no_env [Command 7 Start start_abc]
             (boot {| Docker.containers := [];
                      Docker.images := ["palcode/python"];
                      Docker.next_id := 10;
                      Docker.remote := [("abc", "s1"); ("xyz", "s1")] |}) in
  let xyz := command (Some "xyz") (Some "python") (Some "s1") None in
  let evs := [Command 8 Start xyz; StreamData 0 "out of abc"; StreamData 1 "out of xyz";
              Command 8 Stdin (command (Some "xyz") None None (Some "in"));
              Command 9 Stop xyz; StreamEnd 1] in
  ids_fresh (world σ) /\
  forallb (foreign_to "abc" σ) evs = true /\
  relays σ !! 0 = Some {| r_project := "abc"; r_school := "s1" |} /\
  Docker.live "abc" (world σ) <> [] /\
  Docker.live "abc" (world (run demo_helpers no_env evs σ)) = Docker.live "abc" (world σ).
Proof.
  intros σ xyz evs.
  assert (Hfresh : ids_fresh (world σ)).
  { apply Forall_singleton. vm_compute. lia. }
  split; [exact Hfresh|]. split; [reflexivity|]. split; [reflexivity|].
  split; [discriminate|].
  apply (other_projects_are_untouched demo_helpers no_env "abc" evs σ Hfresh).
  reflexivity.
Defined.

Lemma live_update_same p f (w : Docker.World) :
  (forall c, Docker.sb_name (f c) = Docker.sb_name c) ->
  Docker.live p (Docker.update (ByName p) f w) = map f (Docker.live p w).
Proof.
  intros Hf. unfold Docker.live, Docker.update. simpl.
  induction (Docker.containers w) as [|c cs IH]; simpl; [done|].
  destruct (String.eqb p (Docker.sb_name c)) eqn:Ep.
  - rewrite Hf, Ep. simpl. by rewrite IH.
  - by rewrite Ep.
Qed.

(** X6: a [stdin] command that carries both fields is silent: on any runtime
    the handler completes, sends no event to anyone and changes neither rooms
    nor relays. On the reference runtime the input is appended, once, to the
    input of the sandbox named [projectId] and the sandboxes of other names
    are not touched; when there is no such sandbox nothing happens at all
    and the caller is not told. *)
Theorem stdin_is_fed_silently :
  (forall (W : Type) (RT : Runtime W) (s : nat) (data : Data) (σ : @St W),
     falsy (projectId data) || falsy (stdin data) = false ->
     exists σ',
       onStdin s data σ = (Done tt, σ') /\
       List.filter is_emit (since σ σ') = [] /\
       rooms σ' = rooms σ /\ relays σ' = relays σ)
  /\
  (forall (s : nat) (data : Data) (σ : @St Docker.World),
     falsy (projectId data) || falsy (stdin data) = false ->
     let p := str (projectId data) in
     let σ' := (onStdin s data σ).2 in
     Docker.live p (world σ') = map (Docker.feed (str (stdin data))) (Docker.live p (world σ)) /\
     (forall q, q <> p -> Docker.live q (world σ') = Docker.live q (world σ)) /\
     (Docker.live p (world σ) = [] -> world σ' = world σ)).
Proof.
  split.
  - intros W RT s data σ Hv. rewrite onStdin_valid by done.
    pose proof (containerStdin_eq (str (projectId data)) (str (stdin data)) σ) as He.
    cbv zeta in He. rewrite He. eexists. split; [reflexivity|].
    rewrite since_mkSt. split; [|done].
    by destruct (rt_attach_stdin _ _).1.
  - intros s data σ Hv p σ'. subst σ' p. rewrite onStdin_valid by done.
    pose proof (containerStdin_eq (str (projectId data)) (str (stdin data)) σ) as He.
    cbv zeta in He. rewrite He. cbn [snd world]. simpl.
    destruct (find (Docker.resolves (getContainer (str (projectId data))))
                (Docker.containers (world σ))) as [c|] eqn:Hfind; simpl.
    + split; [by apply live_update_same|]. split.
      * intros q Hq. by apply live_update_other.
      * intros Hl. apply find_name_none in Hl. unfold getContainer in Hfind. congruence.
    + apply find_name_none in Hfind. rewrite Hfind. done.
Qed.

Lemma stdin_is_fed_silently_witness :
  let data := command (Some "abc") None None (Some "42") in
  let σ := boot (host [sandbox_abc] ["palcode/python"]) in
  let σ' := (onStdin 7 data σ).2 in
  falsy (projectId data) || falsy (stdin data) = false /\
  Docker.live "abc" (world σ') = [Docker.feed "42" sandbox_abc] /\
  (forall q, q <> "abc" -> Docker.live q (world σ') = Docker.live q (world σ)) /\
  (Docker.live "abc" (world σ) = [] -> world σ' = world σ).
Proof.
  split; [reflexivity|].
  apply (proj2 stdin_is_fed_silently 7 (command (Some "abc") None None (Some "42"))
           (boot (host [sandbox_abc] ["palcode/python"]))).
  reflexivity.
Defined.

(** X7: the ['end'] listener of a relay tears down by name. When a stream
    that belongs to project p ends after a later [start] for p has created
    and started a new sandbox, the listener's teardown removes that new
    sandbox: on the reference runtime no sandbox named p is left, and the
    socket that started it receives [{status: 200, running: false}]. *)
Theorem late_end_removes_new_sandbox :
  forall (H : Helpers) (env : Env) (k : nat) (r : Relay) (s : nat) (data : Data)
         (σ : @St Docker.World),
    relays σ !! k = Some r ->
    r_project r = str (projectId data) ->
    valid_start H data = true ->
    fetch_ok data (world σ) = true ->
    image_available H data (world σ) = true ->
    ids_fresh (world σ) ->
    let p := str (projectId data) in
    let o := container_config H env p (language data) in
    let σ1 := step H env σ (Command s Start data) in
    let σ2 := step H env σ1 (StreamEnd k) in
    Docker.live p (world σ1) = [new_sandbox o (world σ) true] /\
    Docker.live p (world σ2) = [] /\
    received s (since σ1 σ2) = [e_ended].
Proof.
  intros H env k r s data σ Hr Hp Hv Hf Hi Hfresh p o σ1 σ2. subst σ2 σ1 o p.
  unfold step. cbn [dispatch].
  pose proof (docker_start_created H env s data σ Hv Hf Hi Hfresh) as He.
  cbv zeta in He. rewrite He. cbn [snd relays]. clear He.
  split.
  { cbn [world]. rewrite live_with_new, stopped_live. simpl.
    by rewrite String.eqb_refl. }
  assert (Hk : exists r', (<[next_stream σ := {| r_project := str (projectId data);
                                                 r_school := str (schoolId data) |}]>
                             (relays σ)) !! k = Some r'
                          /\ r_project r' = str (projectId data)).
  { destruct (decide (k = next_stream σ)) as [->|Hne].
    - eexists. split; [apply lookup_insert_eq|done].
    - exists r. split; [by rewrite lookup_insert_ne|done]. }
  destruct Hk as (r' & -> & Hp'). rewrite onEnd_eq, Hp'. cbn [snd world].
  split; [apply stopped_live|].
  erewrite since_app; [|simpl; reflexivity]. simpl.
  rewrite (bool_decide_eq_true_2 _
             (subscribers_joined (rooms σ) (str (projectId data)) s)).
  reflexivity.
Qed.

Lemma late_end_removes_new_sandbox_witness :
  let σ := run demo_helpers no_env [Command 7 Start start_abc]
             (boot (host [] ["palcode/python"])) in
  let r := {| r_project := "abc"; r_school := "s1" |} in
  let p := str (projectId start_abc) in
  let o := container_config demo_helpers no_env p (language start_abc) in
  let σ1 := step demo_helpers no_env σ (Command 8 Start start_abc) in
  let σ2 := step demo_helpers no_env σ1 (StreamEnd 0) in
  relays σ !! 0 = Some r /\
  r_project r = str (projectId start_abc) /\
  valid_start demo_helpers start_abc = true /\
  fetch_ok start_abc (world σ) = true /\
  image_available demo_helpers start_abc (world σ) = true /\
  ids_fresh (world σ) /\
  Docker.live p (world σ1) = [new_sandbox o (world σ) true] /\
  Docker.live p (world σ2) = [] /\
  received 8 (since σ1 σ2) = [e_ended].
Proof.
  intros σ r p o σ1 σ2.
  assert (Hfresh : ids_fresh (world σ)).
  { apply Forall_singleton. vm_compute. lia. }
  split; [reflexivity|]. split; [reflexivity|]. split; [reflexivity|].
  split; [reflexivity|]. split; [reflexivity|]. split; [exact Hfresh|].
  apply (late_end_removes_new_sandbox demo_helpers no_env 0 r 8 start_abc σ);
    [reflexivity|reflexivity|reflexivity|reflexivity|reflexivity|exact Hfresh].
Defined.

(** X8: a [stop] neither detaches the relay nor unsubscribes the caller. When
    the caller is subscribed to the project and the stream ends after the
    [stop], the caller receives [{status: 200, running: false}] twice: the
    direct acknowledgement of the [stop] and the terminal broadcast of the
    relay; only then is the relay gone. *)
Theorem stopped_session_is_announced_twice :
  forall (W : Type) (RT : Runtime W) (H : Helpers) (env : Env) (s : nat) (data : Data)
         (k : nat) (r : Relay) (σ : @St W),
    falsy (projectId data) = false ->
    relays σ !! k = Some r ->
    s ∈ subscribers (rooms σ) (r_project r) ->
    let σ1 := step H env σ (Command s Stop data) in
    let σ2 := step H env σ1 (StreamEnd k) in
    relays σ1 = relays σ /\ rooms σ1 = rooms σ /\
    received s (since σ σ2) = [e_ended; e_ended] /\
    relays σ2 = delete k (relays σ).
Proof.
  intros W RT H env s data k r σ Hp Hr Hs σ1 σ2. subst σ2 σ1.
  unfold step. cbn [dispatch]. rewrite onStop_eq by done. cbn [snd relays rooms].
  split; [done|]. split; [done|].
  rewrite Hr, onEnd_eq. cbn [snd relays rooms].
  split; [|done].
  erewrite since_app; [|simpl; rewrite <- app_assoc; reflexivity].
  unfold teardown_acts. simpl. rewrite Nat.eqb_refl.
  by rewrite (bool_decide_eq_true_2 _ Hs).
Qed.

Lemma stopped_session_is_announced_twice_witness :
  let σ := run demo_helpers no_env [Command 7 Start start_abc]
             (boot (host [] ["palcode/python"])) in
  let r := {| r_project := "abc"; r_school := "s1" |} in
  let σ1 := step demo_helpers no_env σ (Command 7 Stop stop_abc) in
  let σ2 := step demo_helpers no_env σ1 (StreamEnd 0) in
  falsy (projectId stop_abc) = false /\
  relays σ !! 0 = Some r /\
  7 ∈ subscribers (rooms σ) (r_project r) /\
  relays σ1 = relays σ /\ rooms σ1 = rooms σ /\
  received 7 (since σ σ2) = [e_ended; e_ended] /\
  relays σ2 = delete 0 (relays σ).
Proof.
  intros σ r σ1 σ2.
  assert (Hs : 7 ∈ subscribers (rooms σ) (r_project r)).
  { apply elem_of_subscribers. exists {["abc"]}.
    split; [reflexivity|by apply elem_of_singleton]. }
  split; [reflexivity|]. split; [reflexivity|]. split; [exact Hs|].
  apply (stopped_session_is_announced_twice Docker.World docker_runtime demo_helpers no_env
           7 stop_abc 0 r σ); [reflexivity|reflexivity|exact Hs].
Defined.



(** ** Settings that are not plain numerals *)

Section Settings.










Lemma parseInt_junk c r : junk_head c = true -> parseInt_string (String c r) = NaN.
Proof.
  destruct c as [[] [] [] [] [] [] [] []]; intros Hj; try discriminate Hj; reflexivity.
Qed.

Lemma or_default_unset e d : or_default (unset_empty e) d = or_default e d.
Proof. destruct e as [[|c s]|]; reflexivity. Qed.

Lemma or_string_unset e d : or_string (unset_empty e) d = or_string e d.
Proof. destruct e as [[|c s]|]; reflexivity. Qed.

End Settings.



(** X11: settings that configure nothing. A variable set to the empty string
    counts as unset: the creation options and the stop signal are those of
    the environment without it. A variable whose value starts with an ASCII
    character that no number starts with (a letter, a punctuation mark) is
    not replaced by the default: the limit is NaN, and the timeout passed to
    the entrypoint is "NaNm". *)
Theorem settings_without_a_number :
  (forall (H : Helpers) (env : Env) (p : string) (lang : option string),
     container_config H (without_empty env) p lang = container_config H env p lang /\
     stop_signal (without_empty env) = stop_signal env)
  /\
  (forall (H : Helpers) (env : Env) (p : string) (lang : option string) (c : ascii)
          (r : string),
     junk_head c = true ->
     let o := container_config H env p lang in
     (PAL_MEMORY_QUOTA env = Some (String c r) -> Memory o = NaN) /\
     (PAL_PID_LIMIT env = Some (String c r) -> PidsLimit o = NaN) /\
     (PAL_DISK_QUOTA env = Some (String c r) -> DiskQuota o = NaN) /\
     (PAL_TIMEOUT env = Some (String c r) -> Entrypoint o = ["./run.sh"; "NaNm"])).
Proof.
  split.
  - intros H env p lang. unfold container_config, stop_signal, without_empty.
    cbn [PAL_TIMEOUT PAL_PID_LIMIT PAL_MEMORY_QUOTA PAL_DISK_QUOTA PAL_STOP_SIGNAL].
    by rewrite !or_default_unset, or_string_unset.
  - intros H env p lang c r Hj o. subst o.
    unfold container_config. cbn [Memory PidsLimit DiskQuota Entrypoint].
    repeat split; intros ->; unfold or_default; cbn [truthy parseInt];
      by rewrite (parseInt_junk c r Hj).
Qed.

Lemma settings_without_a_number_witness :
  let env := {| PAL_TIMEOUT := Some "soon"; PAL_PID_LIMIT := Some "many";
                PAL_MEMORY_QUOTA := None; PAL_DISK_QUOTA := None;
                PAL_STOP_SIGNAL := None |} in
  let o := container_config demo_helpers env "abc" (Some "python") in
  junk_head "s" = true /\
  PAL_TIMEOUT env = Some (String "s" "oon") /\
  Entrypoint o = ["./run.sh"; "NaNm"].
Proof.
  intros env o. split; [reflexivity|]. split; [reflexivity|].
  refine (proj2 (proj2 (proj2 (proj2 settings_without_a_number demo_helpers env "abc"
                                 (Some "python") "s"%char "oon" _))) _);
    reflexivity.
Defined.

(** ** What a command does to other connections *)

Section Locality.
Context {W : Type} `{RT : Runtime W}.
Variable H : Helpers.
Variable env : Env.
Implicit Types (σ : @St W).

Lemma execCode_no_reply p lang sch σ :
  exists t, log (execCode H env p lang sch σ).2 = log σ ++ t /\ omap replies_to t = [].
Proof.
  destruct ((rt_createContainer (container_config H env p lang) (world σ)).1)
    as [id|] eqn:Hc.
  - pose proof (execCode_created H env p lang sch σ id Hc) as He.
    cbv zeta in He. rewrite He. simpl. eauto.
  - rewrite (execCode_failed H env p lang sch σ Hc). simpl. eauto.
Qed.

(** One event changes the membership of no socket but the sender of the
    command, and replies directly to no socket but that one. *)
Lemma step_local e σ s :
  sent_by s e = false ->
  rooms (step H env σ e) !! s = rooms σ !! s /\
  exists t, log (step H env σ e) = log σ ++ t /\
            Forall (fun s' => s' <> s) (omap replies_to t).
Proof.
  intros Hs. unfold step. destruct e as [s0 c data|k chunk|k]; cbn [dispatch].
  - simpl in Hs. apply Nat.eqb_neq in Hs. destruct c.
    + destruct (valid_start H data) eqn:Hv.
      * destruct (fetch_ok data (world σ)) eqn:Hf.
        -- rewrite onStart_accepted by done.
           destruct (execCode_quiet H env (str (projectId data)) (language data)
                       (str (schoolId data)) (at_execCode env s0 data σ))
             as (_ & Hr & _).
           destruct (execCode_no_reply (str (projectId data)) (language data)
                       (str (schoolId data)) (at_execCode env s0 data σ))
             as (t & Hl & Ht).
           split; [rewrite Hr; simpl; by rewrite lookup_insert_ne|].
           eexists. split; [rewrite Hl; simpl; rewrite <- app_assoc; reflexivity|].
           rewrite omap_app, Ht. unfold teardown_acts. simpl.
           by apply Forall_singleton.
        -- rewrite onStart_not_found by done. simpl. split; [done|].
           eexists. split; [reflexivity|]. simpl. by repeat constructor.
      * rewrite onStart_malformed by done. simpl. split; [done|].
        eexists. split; [reflexivity|]. simpl. by repeat constructor.
    + destruct (falsy (projectId data) || falsy (stdin data)) eqn:Hv.
      * rewrite onStdin_malformed by done. simpl. split; [done|].
        eexists. split; [reflexivity|]. simpl. by repeat constructor.
      * rewrite onStdin_valid by done.
        pose proof (containerStdin_eq (str (projectId data)) (str (stdin data)) σ) as He.
        cbv zeta in He. rewrite He. simpl. split; [done|].
        eexists. split; [reflexivity|]. by destruct (rt_attach_stdin _ _).1.
    + destruct (falsy (projectId data)) eqn:Hp.
      * rewrite onStop_malformed by done. simpl. split; [done|].
        eexists. split; [reflexivity|]. simpl. by repeat constructor.
      * rewrite onStop_eq by done. simpl. split; [done|].
        eexists. split; [reflexivity|]. unfold teardown_acts. simpl.
        by repeat constructor.
  - destruct (relays σ !! k); simpl.
    + split; [done|]. eexists. split; [reflexivity|]. done.
    + split; [done|]. exists []. by rewrite app_nil_r.
  - destruct (relays σ !! k); simpl.
    + rewrite onEnd_eq. simpl. split; [done|].
      eexists. split; [reflexivity|]. unfold teardown_acts. simpl. done.
    + split; [done|]. exists []. by rewrite app_nil_r.
Qed.

End Locality.

(** X12: subscriber membership is connection-local. A socket that sends no
    command during a run keeps exactly the rooms it had, whatever the other
    sockets start, feed or stop and whatever the streams do, and no direct
    reply is addressed to it. *)
Theorem silent_socket_is_left_alone :
  forall (W : Type) (RT : Runtime W) (H : Helpers) (env : Env) (s : nat)
         (evs : list Ev) (σ : @St W),
    forallb (fun e => negb (sent_by s e)) evs = true ->
    rooms (run H env evs σ) !! s = rooms σ !! s /\
    Forall (fun s' => s' <> s) (omap replies_to (since σ (run H env evs σ))).
Proof.
  intros W RT H env s evs σ Hevs.
  assert (Hgen : rooms (run H env evs σ) !! s = rooms σ !! s /\
                 exists t, log (run H env evs σ) = log σ ++ t /\
                           Forall (fun s' => s' <> s) (omap replies_to t)).
  { revert σ. induction evs as [|e evs IH]; intros σ.
    - split; [done|]. exists []. simpl. by rewrite app_nil_r.
    - simpl in Hevs. apply andb_true_iff in Hevs as [He Hevs].
      apply negb_true_iff in He.
      destruct (step_local H env e σ s He) as (Hr1 & t1 & Hl1 & Ht1).
      destruct (IH Hevs (step H env σ e)) as (Hr2 & t2 & Hl2 & Ht2).
      rewrite run_cons. split; [by rewrite Hr2|].
      exists (t1 ++ t2). split; [by rewrite Hl2, Hl1, app_assoc|].
      rewrite omap_app. by apply Forall_app. }
  destruct Hgen as (Hr & t & Hl & Ht). split; [exact Hr|].
  by rewrite (since_app _ _ _ Hl).
Qed.

Lemma silent_socket_is_left_alone_witness :
  let σ := run demo_helpers no_env [Command 7 Start start_abc]
             (boot (host [] ["palcode/python"])) in
  let evs := [Command 8 Start start_abc; StreamData 1 "out";
              Command 9 Stop stop_abc; StreamEnd 1;
              Command 8 Stdin (command None None None None)] in
  forallb (fun e => negb (sent_by 7 e)) evs = true /\
  rooms (run demo_helpers no_env evs σ) !! 7 = rooms σ !! 7 /\
  Forall (fun s' => s' <> 7)
    (omap replies_to (since σ (run demo_helpers no_env evs σ))).
Proof.
  split; [reflexivity|].
  apply (silent_socket_is_left_alone Docker.World docker_runtime demo_helpers no_env 7).
  reflexivity.
Defined.
